(** * Mission Simulation Engine (src/App.tsx, src/services/api.ts)

    A shallow embedding of the position model, the trajectory-curve
    generator, the outcome estimator with its offline fallback, and the
    run lifecycle held in the [App] component's state.

    JavaScript's [number] is kept abstract behind the [Number] interface and
    interpreted twice: over the real numbers (the arithmetic in which the
    design document states its formulas) and over IEEE-754 binary64 (what
    the engine executes, and what the kernel's primitive floats compute
    bit for bit). *)

From Stdlib Require Import ZArith QArith Reals Lra Lia List String Ascii Bool.
From Stdlib Require Import Floats DecimalString.
Import ListNotations.

Set Implicit Arguments.
Close Scope Q_scope.
Close Scope R_scope.
Open Scope string_scope.

(* ================================================================== *)
(** * The number interface *)
(* ================================================================== *)

(** Operations of the JavaScript [number] type that the engine uses.
    [lit q] is the numeric literal whose decimal text denotes [q];
    [gtb a b] is [a > b], [geb a b] is [a >= b]; [toFixed x d] is
    [x.toFixed(d)]. *)
Class Number (num : Type) : Type := {
  lit : Q -> num;
  add : num -> num -> num;
  sub : num -> num -> num;
  mul : num -> num -> num;
  div : num -> num -> num;
  gtb : num -> num -> bool;
  geb : num -> num -> bool;
  Math_max : num -> num -> num;
  Math_min : num -> num -> num;
  Math_abs : num -> num;
  toFixed : num -> nat -> string
}.

Arguments lit {num _} q%_Q.

(** [Math.sin], [Math.cos], [Math.PI], and [Math.pow] at a literal
    non-negative integer exponent (its only use in the source). *)
Class MathLib (num : Type) : Type := {
  Math_sin : num -> num;
  Math_cos : num -> num;
  Math_PI : num;
  Math_pow : num -> nat -> num
}.

(** The Number value of a Date's time value: milliseconds since the epoch,
    or NaN for an invalid Date ([None]). *)
Class TimeValue (num : Type) : Type := {
  of_time : option Z -> num
}.

Declare Scope js_scope.
Delimit Scope js_scope with js.
Infix "+" := add : js_scope.
Infix "-" := sub : js_scope.
Infix "*" := mul : js_scope.
Infix "/" := div : js_scope.
Infix ">?" := gtb (at level 70, no associativity) : js_scope.
Infix ">=?" := geb (at level 70, no associativity) : js_scope.

(** ** Rendering of [toFixed] *)

(** Left-pad a digit string with zeros up to [len] characters. *)
Fixpoint zeros (n : nat) : string :=
  match n with
  | O => ""
  | S n' => String "0" (zeros n')
  end.

Definition pad_zeros (len : nat) (s : string) : string :=
  zeros (len - String.length s) ++ s.

(** [fixed_digits n d]: the integer [n >= 0] read as a count of units of
    [10^-d], written positionally with exactly [d] fraction digits. *)
Definition fixed_digits (n : Z) (d : nat) : string :=
  let s := pad_zeros (S d) (NilZero.string_of_uint (N.to_uint (Z.to_N n))) in
  let k := String.length s - d in
  match d with
  | O => s
  | S _ => substring 0 k s ++ "." ++ substring k d s
  end.

(* ================================================================== *)
(** * Interpretation over the reals *)
(* ================================================================== *)

Definition R_gtb (a b : R) : bool := if Rlt_dec b a then true else false.
Definition R_geb (a b : R) : bool := if Rle_dec b a then true else false.

(** [toFixed]: the nearest multiple of [10^-d], ties to the larger
    magnitude, sign written in front. *)
Definition R_toFixed (x : R) (d : nat) : string :=
  if Rlt_dec x 0
  then "-" ++ fixed_digits (Int_part (- x * 10 ^ d + / 2)%R) d
  else fixed_digits (Int_part (x * 10 ^ d + / 2)%R) d.

#[export] Instance R_Number : Number R := {|
  lit := Q2R;
  add := Rplus;
  sub := Rminus;
  mul := Rmult;
  div := Rdiv;
  gtb := R_gtb;
  geb := R_geb;
  Math_max := Rmax;
  Math_min := Rmin;
  Math_abs := Rabs;
  toFixed := R_toFixed
|}.

#[export] Instance R_MathLib : MathLib R := {|
  Math_sin := sin;
  Math_cos := cos;
  Math_PI := PI;
  Math_pow := pow
|}.

(* ================================================================== *)
(** * Interpretation over binary64 *)
(* ================================================================== *)

Definition float_of_Z (z : Z) : float :=
  match z with
  | Z0 => PrimFloat.zero
  | Zpos _ => PrimFloat.of_uint63 (Uint63.of_Z z)
  | Zneg p => PrimFloat.opp (PrimFloat.of_uint63 (Uint63.of_Z (Zpos p)))
  end.

(** A decimal literal denotes the double nearest to its value.  Numerator
    and denominator of every literal in the source are below [2^53], so
    both convert exactly and the correctly rounded quotient is that
    double. *)
Definition float_lit (q : Q) : float :=
  PrimFloat.div (float_of_Z (Qnum q)) (float_of_Z (Zpos (Qden q))).

(** [Math.max]: NaN if either argument is NaN; [+0] is larger than [-0]. *)
Definition float_max (a b : float) : float :=
  if PrimFloat.is_nan a || PrimFloat.is_nan b then PrimFloat.nan
  else if PrimFloat.ltb a b then b
  else if PrimFloat.ltb b a then a
  else if PrimFloat.get_sign a then b else a.

(** [Math.min]: NaN if either argument is NaN; [-0] is smaller than [+0]. *)
Definition float_min (a b : float) : float :=
  if PrimFloat.is_nan a || PrimFloat.is_nan b then PrimFloat.nan
  else if PrimFloat.ltb a b then a
  else if PrimFloat.ltb b a then b
  else if PrimFloat.get_sign a then a else b.

(** The integer nearest to [m * 2^e * 10^d], ties upward. *)
Definition round_scaled (m : positive) (e : Z) (d : nat) : Z :=
  let s := (Zpos m * 10 ^ Z.of_nat d)%Z in
  match e with
  | Zneg k => ((2 * s + 2 ^ Zpos k) / 2 ^ (Zpos k + 1))%Z
  | _ => (s * 2 ^ e)%Z
  end.

(** [Number.prototype.toFixed] on the exact value of the double, for
    magnitudes below [10^21] (beyond that JavaScript switches to
    exponential notation, which no value of the engine reaches). *)
Definition float_toFixed (x : float) (d : nat) : string :=
  match Prim2SF x with
  | S754_nan => "NaN"
  | S754_infinity s => if s then "-Infinity" else "Infinity"
  | S754_zero _ => fixed_digits 0 d
  | S754_finite s m e =>
      (if s then "-" else "") ++ fixed_digits (round_scaled m e d) d
  end.

#[export] Instance float_Number : Number float := {|
  lit := float_lit;
  add := PrimFloat.add;
  sub := PrimFloat.sub;
  mul := PrimFloat.mul;
  div := PrimFloat.div;
  gtb := fun a b => PrimFloat.ltb b a;
  geb := fun a b => PrimFloat.leb b a;
  Math_max := float_max;
  Math_min := float_min;
  Math_abs := PrimFloat.abs;
  toFixed := float_toFixed
|}.

#[export] Instance float_TimeValue : TimeValue float := {|
  of_time := fun t => match t with
                      | Some ms => float_of_Z ms
                      | None => PrimFloat.nan
                      end
|}.

(* ================================================================== *)
(** * Data model (src/App.tsx, src/services/api.ts) *)
(* ================================================================== *)

(** ['chemical' | 'ion' | 'solar-sail'] *)
Inductive PropulsionType : Type := chemical | ion | solar_sail.

(** ['small' | 'medium' | 'large'] *)
Inductive PayloadSize : Type := small | medium | large.

(** The string each member of the union type is at run time. *)
Definition propulsion_string (p : PropulsionType) : string :=
  match p with
  | chemical => "chemical"
  | ion => "ion"
  | solar_sail => "solar-sail"
  end.

Definition payload_string (s : PayloadSize) : string :=
  match s with
  | small => "small"
  | medium => "medium"
  | large => "large"
  end.

(** [interface UIMissionParameters] *)
Record UIMissionParameters : Type := {
  launchDate : string;
  propulsionType : PropulsionType;
  payloadSize : PayloadSize
}.

(** [interface MissionParameters] of the remote service. *)
Record MissionParameters : Type := {
  launch_date : string;
  propulsion_type : PropulsionType;
  payload_size : PayloadSize
}.

(** [interface UIMissionResults] *)
Record UIMissionResults (num : Type) : Type := {
  travelTime : num;
  deltaV : num;
  successProbability : num;
  missionLog : list string;
  fuelCost : num;
  missionStatus : string
}.

(** [interface MissionResults] of the remote service. *)
Record MissionResults (num : Type) : Type := {
  travel_time : num;
  delta_v : num;
  success_probability : num;
  mission_log : list string;
  fuel_cost : num;
  mission_status : string
}.

(** The five [useState] cells of the [App] component. *)
Record AppState (num : Type) : Type := {
  parameters : UIMissionParameters;
  results : UIMissionResults num;
  isSimulating : bool;
  isAnimating : bool;
  apiError : option string
}.

(* ================================================================== *)
(** * Outcome estimator: the offline fallback *)
(* ================================================================== *)

Section Fallback.
Context {num : Type} {N : Number num}.
Local Open Scope js_scope.

(** The three mutable locals [deltaVMultiplier], [timeMultiplier],
    [successBase]. *)
Record Multipliers : Type := {
  deltaVMultiplier : num;
  timeMultiplier : num;
  successBase : num
}.

(** [let deltaVMultiplier = 1; let timeMultiplier = 1; let successBase = 0.7;] *)
Definition initial_multipliers : Multipliers :=
  {| deltaVMultiplier := lit 1; timeMultiplier := lit 1; successBase := lit 0.7 |}.

(** [switch (parameters.propulsionType)], with no [default] arm: an
    unmatched discriminant leaves the locals as they are. *)
Definition switch_propulsion (tag : string) (m : Multipliers) : Multipliers :=
  if String.eqb tag "chemical" then
    {| deltaVMultiplier := lit 1.2; timeMultiplier := lit 0.8; successBase := lit 0.6 |}
  else if String.eqb tag "ion" then
    {| deltaVMultiplier := lit 0.8; timeMultiplier := lit 1.2; successBase := lit 0.8 |}
  else if String.eqb tag "solar-sail" then
    {| deltaVMultiplier := lit 0.3; timeMultiplier := lit 2.0; successBase := lit 0.5 |}
  else m.

(** [switch (parameters.payloadSize)]: arms for ['small'] and ['large']
    only. *)
Definition switch_payload (tag : string) (m : Multipliers) : Multipliers :=
  if String.eqb tag "small" then
    {| deltaVMultiplier := deltaVMultiplier m * lit 0.9;
       timeMultiplier := timeMultiplier m * lit 0.9;
       successBase := successBase m + lit 0.1 |}
  else if String.eqb tag "large" then
    {| deltaVMultiplier := deltaVMultiplier m * lit 1.3;
       timeMultiplier := timeMultiplier m * lit 1.3;
       successBase := successBase m - lit 0.1 |}
  else m.

(** The locals after both switches. *)
Definition adjusted_multipliers (p : UIMissionParameters) : Multipliers :=
  switch_payload (payload_string (payloadSize p))
    (switch_propulsion (propulsion_string (propulsionType p))
       initial_multipliers).

(** The [newResults] object built in the [catch] block of
    [simulateMission]. *)
Definition fallbackResults (p : UIMissionParameters) : UIMissionResults num :=
  let baseDeltaV := lit 15 in
  let baseTravelTime := lit 5 in
  let m := adjusted_multipliers p in
  let finalDeltaV := baseDeltaV * deltaVMultiplier m in
  let finalTravelTime := baseTravelTime * timeMultiplier m in
  let finalSuccess := Math_max (lit 0.1) (Math_min (lit 0.95) (successBase m)) in
  {| travelTime := finalTravelTime;
     deltaV := finalDeltaV;
     successProbability := finalSuccess;
     missionLog :=
       [ "⚠️ Offline mode - API unavailable";
         "Mission parameters: " ++ propulsion_string (propulsionType p)
           ++ " propulsion, " ++ payload_string (payloadSize p) ++ " payload";
         "Calculated ΔV requirement: " ++ toFixed finalDeltaV 1 ++ " km/s";
         "Estimated travel time: " ++ toFixed finalTravelTime 1 ++ " years";
         "Mission success probability: "
           ++ toFixed (finalSuccess * lit 100) 0 ++ "%" ]%string;
     fuelCost := finalDeltaV * lit 0.8;
     missionStatus := if finalSuccess >? lit 0.7 then "success" else "warning" |}.

End Fallback.

Arguments Multipliers num : clear implicits.

(* ================================================================== *)
(** * Statements that may throw *)
(* ================================================================== *)

(** How a statement completes: normally with a value, or abruptly with a
    thrown value. *)
Inductive Completion (E A : Type) : Type :=
| Normal (a : A)
| Throw (e : E).

Arguments Normal {E A} a.
Arguments Throw {E A} e.

Section Exec.
Variables St E : Type.

(** A statement acting on the component state. *)
Definition Exec (A : Type) : Type := St -> Completion E A * St.

Definition ret {A} (a : A) : Exec A := fun s => (Normal a, s).

Definition throw {A} (e : E) : Exec A := fun s => (Throw e, s).

Definition bind {A B} (c : Exec A) (k : A -> Exec B) : Exec B :=
  fun s =>
    match c s with
    | (Normal a, s') => k a s'
    | (Throw e, s') => (Throw e, s')
    end.

(** A state setter. *)
Definition modify (f : St -> St) : Exec unit := fun s => (Normal tt, f s).

(** [await p] for a promise that has settled as [p]: the fulfilment
    value, or the rejection reason thrown. *)
Definition await {A} (p : Completion E A) : Exec A := fun s => (p, s).

(** [try { body } catch (error) { handler } finally { finalizer }] *)
Definition try_catch_finally
    (body : Exec unit) (handler : E -> Exec unit) (finalizer : Exec unit)
  : Exec unit :=
  fun s =>
    let '(c, s1) :=
      match body s with
      | (Normal a, s') => (Normal a, s')
      | (Throw e, s') => handler e s'
      end in
    match finalizer s1 with
    | (Normal _, s2) => (c, s2)
    | (Throw e, s2) => (Throw e, s2)
    end.

End Exec.

Arguments ret {St E A} a.
Arguments throw {St E A} e.
Arguments bind {St E A B} c k.
Arguments modify {St E} f.
Arguments await {St E A} p.
Arguments try_catch_finally {St E} body handler finalizer.

Notation "x <- c ;; k" := (bind c (fun x => k))
  (at level 61, c at next level, right associativity).
Notation "c ;;; k" := (bind c (fun _ => k))
  (at level 61, right associativity).

(* ================================================================== *)
(** * Remote estimation service (src/services/api.ts) *)
(* ================================================================== *)

(** A request leaving the client: [api.post(path, body)]. *)
Inductive Request : Type :=
| POST (path : string) (body : MissionParameters).

(** What the HTTP exchange behind [api.post('/simulate', ...)] did.  The
    body of a response is a results object, or [None] for a JSON [null]. *)
Inductive Exchange (num : Type) : Type :=
| http_response (status : Z) (data : option (MissionResults num))
| network_error
| timeout.

Arguments network_error {num}.
Arguments timeout {num}.

(** A value thrown: the reason the request promise rejects with, or the
    TypeError of reading a property of [null]. *)
Inductive Thrown : Type :=
| ERR_NETWORK
| ECONNABORTED
| ERR_BAD_STATUS (status : Z)
| TypeError.

(** [api.post]: the HTTP client resolves with the response for a status
    in [200, 300) and rejects otherwise, as it does when no response
    arrives. *)
Definition api_post {num} (x : Exchange num)
  : Completion Thrown (Z * option (MissionResults num)) :=
  match x with
  | http_response status data =>
      if ((200 <=? status) && (status <? 300))%Z
      then Normal (status, data)
      else Throw (ERR_BAD_STATUS status)
  | network_error => Throw ERR_NETWORK
  | timeout => Throw ECONNABORTED
  end.

(** [missionAPI.simulate]: [return response.data]. *)
Definition missionAPI_simulate {num} (x : Exchange num)
  : Completion Thrown (option (MissionResults num)) :=
  match api_post x with
  | Normal (_, data) => Normal data
  | Throw e => Throw e
  end.

(** The results object of an exchange that the [try] block can use: a
    status in [200, 300) with an object for a body. *)
Definition remote_results {num} (x : Exchange num) : option (MissionResults num) :=
  match x with
  | http_response status (Some data) =>
      if ((200 <=? status) && (status <? 300))%Z then Some data else None
  | _ => None
  end.

(** Delegation failed: no response, a timeout, a status outside
    [200, 300), or a body with nothing to read. *)
Definition delegation_failed {num} (x : Exchange num) : bool :=
  match remote_results x with
  | Some _ => false
  | None => true
  end.

(* ================================================================== *)
(** * The App component: [simulateMission] and [resetMission] *)
(* ================================================================== *)

(** The text [setApiError] receives in the [catch] block. *)
Definition offline_notice : string :=
  "Failed to connect to simulation API. Using offline mode...".

Section App.
Context {num : Type} {N : Number num}.

Definition setParameters (p : UIMissionParameters) (st : AppState num) :=
  {| parameters := p; results := results st; isSimulating := isSimulating st;
     isAnimating := isAnimating st; apiError := apiError st |}.

Definition setResults (r : UIMissionResults num) (st : AppState num) :=
  {| parameters := parameters st; results := r; isSimulating := isSimulating st;
     isAnimating := isAnimating st; apiError := apiError st |}.

Definition setIsSimulating (b : bool) (st : AppState num) :=
  {| parameters := parameters st; results := results st; isSimulating := b;
     isAnimating := isAnimating st; apiError := apiError st |}.

Definition setIsAnimating (b : bool) (st : AppState num) :=
  {| parameters := parameters st; results := results st;
     isSimulating := isSimulating st; isAnimating := b; apiError := apiError st |}.

Definition setApiError (e : option string) (st : AppState num) :=
  {| parameters := parameters st; results := results st;
     isSimulating := isSimulating st; isAnimating := isAnimating st;
     apiError := e |}.

(** The pending outcome both [useState] and [resetMission] install. *)
Definition pendingResults : UIMissionResults num :=
  {| travelTime := lit 0; deltaV := lit 0; successProbability := lit 0;
     missionLog := []; fuelCost := lit 0; missionStatus := "pending" |}.

(** The state of the first render. *)
Definition initialState : AppState num :=
  {| parameters := {| launchDate := "2025-10-30T10:00";
                      propulsionType := ion;
                      payloadSize := medium |};
     results := pendingResults;
     isSimulating := false;
     isAnimating := false;
     apiError := None |}.

Definition Stmt : Type -> Type := Exec (AppState num) Thrown.

(** [simulateMission] up to its [await]: three setters, then
    [missionAPI.simulate(apiParams)], which posts the request.  Returns
    the state and the requests sent. *)
Definition simulateMission_begin (st : AppState num)
  : AppState num * list Request :=
  let st1 := setApiError None (setIsAnimating false (setIsSimulating true st)) in
  let apiParams :=
    {| launch_date := launchDate (parameters st);
       propulsion_type := propulsionType (parameters st);
       payload_size := payloadSize (parameters st) |} in
  (st1, [POST "/simulate" apiParams]).

(** "Convert API results to UI format": the [newResults] object of the
    [try] block. *)
Definition adopt (apiResults : MissionResults num) : UIMissionResults num :=
  {| travelTime := travel_time apiResults;
     deltaV := delta_v apiResults;
     successProbability := success_probability apiResults;
     missionLog := mission_log apiResults;
     fuelCost := fuel_cost apiResults;
     missionStatus := mission_status apiResults |}.

(** Rest of the [try] block, from the [await] on.  Reading
    [apiResults.travel_time] off a [null] throws. *)
Definition simulateMission_try
    (reply : Completion Thrown (option (MissionResults num))) : Stmt unit :=
  response_data <- await reply ;;
  match response_data with
  | None => throw TypeError
  | Some apiResults =>
      modify (setResults (adopt apiResults)) ;;;
      modify (setIsAnimating true)
  end.

(** The [catch] block; [parameters] is the object the closure captured
    when the handler was created.  ([console.error] writes to the console
    and nowhere else.) *)
Definition simulateMission_catch
    (captured : UIMissionParameters) (error : Thrown) : Stmt unit :=
  modify (setApiError (Some offline_notice)) ;;;
  modify (setResults (fallbackResults captured)) ;;;
  modify (setIsAnimating true).

(** The [finally] block. *)
Definition simulateMission_finally : Stmt unit :=
  modify (setIsSimulating false).

(** [simulateMission] from the moment its request settles. *)
Definition simulateMission_resume
    (captured : UIMissionParameters)
    (reply : Completion Thrown (option (MissionResults num))) : Stmt unit :=
  try_catch_finally
    (simulateMission_try reply)
    (simulateMission_catch captured)
    simulateMission_finally.

(** One whole run with nothing interleaved: the service sees the request
    and the exchange [x] is what comes back. *)
Definition simulateMission (x : Exchange num) : Stmt unit :=
  fun st =>
    let '(st1, _) := simulateMission_begin st in
    simulateMission_resume (parameters st) (missionAPI_simulate x) st1.

Definition resetMission (st : AppState num) : AppState num :=
  setApiError None (setIsAnimating false (setResults pendingResults st)).

End App.

(* ================================================================== *)
(** * Run lifecycle: the Simulate and Reset buttons *)
(* ================================================================== *)

Section Lifecycle.
Context {num : Type} {N : Number num}.

(** The component together with the runs of [simulateMission] that are
    suspended at their [await] (each remembers the [parameters] its
    closure captured), the number of runs begun, and the outcomes
    stored by the runs that settled. *)
Record World : Type := {
  app : AppState num;
  inflight : list UIMissionParameters;
  started : nat;
  outcomes : list (UIMissionResults num)
}.

Inductive Event : Type :=
| click_simulate
| click_reset
| change_parameters (p : UIMissionParameters)
| settle (i : nat) (x : Exchange num).

Definition initialWorld : World :=
  {| app := initialState; inflight := []; started := 0; outcomes := [] |}.

(** [onSimulate] invoked: the run begins and suspends at its [await]. *)
Definition invoke_simulate (w : World) : World :=
  {| app := fst (simulateMission_begin (app w));
     inflight := inflight w ++ [parameters (app w)];
     started := S (started w);
     outcomes := outcomes w |}.

(** [<button onClick={onSimulate} disabled={isSimulating}>]: a disabled
    button dispatches no click.  (State set in a click handler is
    rendered before the next click is dispatched.) *)
Definition ControlPanel_simulate_button (w : World) : World :=
  if isSimulating (app w) then w else invoke_simulate w.

(** The [i]-th suspended run resumes with the outcome of its request. *)
Definition settle_run (i : nat) (x : Exchange num) (w : World) : World :=
  match nth_error (inflight w) i with
  | None => w
  | Some captured =>
      let st :=
        snd (simulateMission_resume captured (missionAPI_simulate x) (app w)) in
      {| app := st;
         inflight := firstn i (inflight w) ++ skipn (S i) (inflight w);
         started := started w;
         outcomes := outcomes w ++ [results st] |}
  end.

Definition step (w : World) (e : Event) : World :=
  match e with
  | click_simulate => ControlPanel_simulate_button w
  | click_reset =>
      {| app := resetMission (app w); inflight := inflight w;
         started := started w; outcomes := outcomes w |}
  | change_parameters p =>
      {| app := setParameters p (app w); inflight := inflight w;
         started := started w; outcomes := outcomes w |}
  | settle i x => settle_run i x w
  end.

Definition run (es : list Event) : World := fold_left step es initialWorld.

Inductive reachable : World -> Prop :=
| reachable_initial : reachable initialWorld
| reachable_step w e : reachable w -> reachable (step w e).

(** A run is suspended exactly while [isSimulating] is set, and every run
    begun has either stored its outcome or is still suspended. *)
Definition single_flight (w : World) : Prop :=
  List.length (inflight w) = (if isSimulating (app w) then 1 else 0)%nat
  /\ started w = (List.length (outcomes w) + List.length (inflight w))%nat.

End Lifecycle.

Arguments World num : clear implicits.
Arguments Event num : clear implicits.

(* ================================================================== *)
(** * Dates: [new Date(string)] and [getTime] *)
(* ================================================================== *)

(** The Date Time String Format of ECMAScript:
    [YYYY[-MM[-DD]][THH:mm[:ss[.sss]][Z|(+|-)HH:mm]]].  What a string
    outside the format yields is left to each engine by the standard; here
    it is unrecognised and gives an invalid Date, as the empty string does
    in every engine. *)
Module DateString.

Definition digit (c : ascii) : option Z :=
  let n := nat_of_ascii c in
  if (48 <=? n)%nat && (n <=? 57)%nat then Some (Z.of_nat (n - 48)) else None.

(** Read exactly [k] decimal digits. *)
Fixpoint number (k : nat) (acc : Z) (s : string) : option (Z * string) :=
  match k with
  | O => Some (acc, s)
  | S k' =>
      match s with
      | String c rest =>
          match digit c with
          | Some d => number k' (10 * acc + d)%Z rest
          | None => None
          end
      | EmptyString => None
      end
  end.

(** Consume the character [c] if it comes next. *)
Definition expect (c : ascii) (s : string) : option string :=
  match s with
  | String c' rest => if Ascii.eqb c c' then Some rest else None
  | EmptyString => None
  end.

Record Fields : Type := {
  year : Z; month : Z; day : Z;
  hour : Z; minute : Z; second : Z; millisecond : Z;
  has_time : bool;
  offset : option Z  (* minutes east of UTC, when written *)
}.

(** [-MM[-DD]] *)
Definition month_day (s : string) : option (Z * Z * string) :=
  match expect "-" s with
  | None => Some (1, 1, s)%Z
  | Some s1 =>
      match number 2 0 s1 with
      | None => None
      | Some (mo, s2) =>
          match expect "-" s2 with
          | None => Some (mo, 1%Z, s2)
          | Some s3 =>
              match number 2 0 s3 with
              | None => None
              | Some (d, s4) => Some (mo, d, s4)
              end
          end
      end
  end.

(** [[:ss[.sss]]] *)
Definition seconds_millis (s : string) : option (Z * Z * string) :=
  match expect ":" s with
  | None => Some (0, 0, s)%Z
  | Some s1 =>
      match number 2 0 s1 with
      | None => None
      | Some (sec, s2) =>
          match expect "." s2 with
          | None => Some (sec, 0%Z, s2)
          | Some s3 =>
              match number 3 0 s3 with
              | None => None
              | Some (ms, s4) => Some (sec, ms, s4)
              end
          end
      end
  end.

(** [Z|(+|-)HH:mm], or nothing. *)
Definition utc_offset (s : string) : option (option Z) :=
  match s with
  | EmptyString => Some None
  | String c rest =>
      if Ascii.eqb c "Z" then
        match rest with EmptyString => Some (Some 0%Z) | _ => None end
      else
        let sign :=
          if Ascii.eqb c "+" then Some 1%Z
          else if Ascii.eqb c "-" then Some (-1)%Z else None in
        match sign with
        | None => None
        | Some sg =>
            match number 2 0 rest with
            | None => None
            | Some (h, s1) =>
                match expect ":" s1 with
                | None => None
                | Some s2 =>
                    match number 2 0 s2 with
                    | Some (m, EmptyString) =>
                        if ((h <=? 23) && (m <=? 59))%Z
                        then Some (Some (sg * (h * 60 + m))%Z)
                        else None
                    | _ => None
                    end
                end
            end
        end
  end.

Definition fields (s : string) : option Fields :=
  match number 4 0 s with
  | None => None
  | Some (y, s1) =>
      match month_day s1 with
      | None => None
      | Some (mo, d, s2) =>
          match s2 with
          | EmptyString =>
              Some {| year := y; month := mo; day := d; hour := 0; minute := 0;
                      second := 0; millisecond := 0; has_time := false;
                      offset := None |}
          | String c s3 =>
              if Ascii.eqb c "T" then
                match number 2 0 s3 with
                | None => None
                | Some (h, s4) =>
                    match expect ":" s4 with
                    | None => None
                    | Some s5 =>
                        match number 2 0 s5 with
                        | None => None
                        | Some (mi, s6) =>
                            match seconds_millis s6 with
                            | None => None
                            | Some (sec, ms, s7) =>
                                match utc_offset s7 with
                                | None => None
                                | Some off =>
                                    Some {| year := y; month := mo; day := d;
                                            hour := h; minute := mi;
                                            second := sec; millisecond := ms;
                                            has_time := true; offset := off |}
                                end
                            end
                        end
                    end
                end
              else None
          end
      end
  end.

(** Element values within their bounds; [24:00:00.000] is the one
    legal use of hour 24. *)
Definition in_bounds (f : Fields) : bool :=
  ((1 <=? month f) && (month f <=? 12) && (1 <=? day f) && (day f <=? 31)
   && (hour f <=? 24) && (minute f <=? 59) && (second f <=? 59)
   && (negb (hour f =? 24)
       || ((minute f =? 0) && (second f =? 0) && (millisecond f =? 0))))%Z.

(** Day number of a calendar date, counted from 1970-01-01. *)
Definition MakeDay (y m d : Z) : Z :=
  (let y' := if m <=? 2 then y - 1 else y in
   let era := y' / 400 in
   let yoe := y' - era * 400 in
   let mp := (m + 9) mod 12 in
   let doy := (153 * mp + 2) / 5 + d - 1 in
   let doe := yoe * 365 + yoe / 4 - yoe / 100 + doy in
   era * 146097 + doe - 719468)%Z.

Definition msPerDay : Z := 86400000.

(** Time value of the fields read as UTC. *)
Definition MakeDate (f : Fields) : Z :=
  (MakeDay (year f) (month f) (day f) * msPerDay
   + hour f * 3600000 + minute f * 60000 + second f * 1000 + millisecond f)%Z.

Definition TimeClip (t : Z) : option Z :=
  if (Z.abs t <=? 8640000000000000)%Z then Some t else None.

(** [Date.parse].  Without an offset, a date-only form is UTC and a
    date-time form is local time; [LocalTZA t] is the host's offset from
    UTC, in milliseconds, for local time [t]. *)
Definition parse (LocalTZA : Z -> Z) (s : string) : option Z :=
  match fields s with
  | None => None
  | Some f =>
      if in_bounds f then
        let t := MakeDate f in
        match offset f with
        | Some minutes => TimeClip (t - minutes * 60000)
        | None => if has_time f then TimeClip (t - LocalTZA t) else TimeClip t
        end
      else None
  end.

End DateString.

(** A Date object: its time value, or [None] for an invalid Date. *)
Definition JSDate : Type := option Z.

(** [new Date(s)] *)
Definition Date_new (LocalTZA : Z -> Z) (s : string) : JSDate :=
  DateString.parse LocalTZA s.

(** [d.getTime()] *)
Definition getTime {num} {T : TimeValue num} (d : JSDate) : num := of_time d.

(* ================================================================== *)
(** * Position model: [getTimeBasedPositions] in [SpaceScene] *)
(* ================================================================== *)

(** The props of [SpaceScene]; [getTimeBasedPositions] is a closure over
    them. *)
Record SpaceSceneProps (num : Type) : Type := {
  scene_missionResults : UIMissionResults num;
  scene_isAnimating : bool;
  scene_propulsionType : string;
  scene_launchDate : string
}.

Section PositionModel.
Context {num : Type} {N : Number num} {M : MathLib num} {T : TimeValue num}.
Local Open Scope js_scope.

Definition Vec3 : Type := num * num * num.

Record Positions : Type := {
  earthPosition : Vec3;
  atlasPosition : Vec3;
  currentDistance : num;
  timeFromPerihelion : num
}.

Definition getTimeBasedPositions
    (LocalTZA : Z -> Z) (props : SpaceSceneProps num) : Positions :=
  let launch := Date_new LocalTZA (scene_launchDate props) in
  let optimalDate := Date_new LocalTZA "2025-10-30" in
  let daysDiff :=
    (getTime launch - getTime optimalDate)
    / (lit 1000 * lit 60 * lit 60 * lit 24) in
  let earthOrbitalPhase := (daysDiff / lit 365.25) * lit 2 * Math_PI in
  let earthPosition :=
    (lit (-3) + lit 0.3 * Math_cos earthOrbitalPhase,
     lit 0.3 * Math_sin earthOrbitalPhase,
     lit 0) in
  let timeFromPerihelion := daysDiff / lit 365.25 in
  let perihelionDistance := lit 1.4 in
  let currentDistance :=
    perihelionDistance + Math_abs timeFromPerihelion * lit 2.0 in
  let scaledDistance := currentDistance * lit 2 in
  let atlasPosition :=
    (scaledDistance, lit 3 + timeFromPerihelion * lit 0.5, lit 0) in
  {| earthPosition := earthPosition;
     atlasPosition := atlasPosition;
     currentDistance := currentDistance;
     timeFromPerihelion := timeFromPerihelion |}.

End PositionModel.

Arguments Vec3 num : clear implicits.
Arguments Positions num : clear implicits.

(* ================================================================== *)
(** * Trajectory curve: [getTrajectoryPoints] in [TrajectoryLine] *)
(* ================================================================== *)

Section Trajectory.
Context {num : Type} {N : Number num} {M : MathLib num}.
Local Open Scope js_scope.

(** The numeric value of a loop counter. *)
Definition of_nat (i : nat) : num := lit (inject_Z (Z.of_nat i)).

(** Body of the [for] loop: the point pushed at counter [i]. *)
Definition trajectory_point
    (propulsionType : string) (earthPosition atlasPosition : Vec3 num)
    (segments i : nat) : Vec3 num :=
  let '(earthX, earthY, earthZ) := earthPosition in
  let '(atlasX, atlasY, atlasZ) := atlasPosition in
  let t := of_nat i / of_nat segments in
  if String.eqb propulsionType "chemical" then
    let x := earthX + (atlasX - earthX) * t in
    let y := earthY + (atlasY - earthY) * t
             + Math_sin (t * Math_PI) * lit 0.5 in
    let z := earthZ + (atlasZ - earthZ) * t in
    (x, y, z)
  else if String.eqb propulsionType "ion" then
    let controlX := (earthX + atlasX) / lit 2 in
    let controlY := Math_max earthY atlasY + lit 1.5 in
    let x := Math_pow (lit 1 - t) 2 * earthX
             + lit 2 * (lit 1 - t) * t * controlX
             + Math_pow t 2 * atlasX in
    let y := Math_pow (lit 1 - t) 2 * earthY
             + lit 2 * (lit 1 - t) * t * controlY
             + Math_pow t 2 * atlasY in
    let z := earthZ + (atlasZ - earthZ) * t in
    (x, y, z)
  else if String.eqb propulsionType "solar-sail" then
    let sailControl1X := earthX + (atlasX - earthX) * lit 0.3 in
    let sailControl1Y := earthY + lit 3.0 in
    let sailControl2X := earthX + (atlasX - earthX) * lit 0.7 in
    let sailControl2Y := earthY + lit 2.0 in
    let x := Math_pow (lit 1 - t) 3 * earthX
             + lit 3 * Math_pow (lit 1 - t) 2 * t * sailControl1X
             + lit 3 * (lit 1 - t) * Math_pow t 2 * sailControl2X
             + Math_pow t 3 * atlasX in
    let y := Math_pow (lit 1 - t) 3 * earthY
             + lit 3 * Math_pow (lit 1 - t) 2 * t * sailControl1Y
             + lit 3 * (lit 1 - t) * Math_pow t 2 * sailControl2Y
             + Math_pow t 3 * atlasY in
    let z := earthZ + (atlasZ - earthZ) * t in
    (x, y, z)
  else
    let x := earthX + (atlasX - earthX) * t in
    let y := earthY + (atlasY - earthY) * t in
    let z := earthZ + (atlasZ - earthZ) * t in
    (x, y, z).

(** [for (let i = 0; i <= segments; i++) { ...; points.push([x, y, z]) }]
    starting from [points = []]. *)
Definition trajectory_loop
    (propulsionType : string) (earthPosition atlasPosition : Vec3 num)
    (segments : nat) : list (Vec3 num) :=
  fold_left
    (fun points i =>
       (points ++ [trajectory_point propulsionType earthPosition atlasPosition
                     segments i])%list)
    (seq 0 (S segments)) [].

(** [getTrajectoryPoints], a closure over the props [propulsionType],
    [earthPosition] and [atlasPosition]; [const segments = 50]. *)
Definition getTrajectoryPoints
    (propulsionType : string) (earthPosition atlasPosition : Vec3 num)
  : list (Vec3 num) :=
  let segments := 50%nat in
  trajectory_loop propulsionType earthPosition atlasPosition segments.

End Trajectory.

(** The three propulsion strings the [switch] has an arm for. *)
Definition recognised (v : string) : bool :=
  String.eqb v "chemical" || String.eqb v "ion" || String.eqb v "solar-sail".

(* ================================================================== *)
(** * A host for running the binary64 engine *)
(* ================================================================== *)

(** ECMAScript leaves [Math.sin] and [Math.cos] implementation-approximated.
    This host evaluates the Taylor polynomials of degree 29 and 30 by
    Horner's rule, accurate to about [1e-15] for phase angles within half
    a turn of the reference epoch; [Math.pow] at a small integer exponent
    multiplies. *)
Module TaylorHost.
Local Open Scope float_scope.

Definition sin (x : float) : float :=
  let x2 := x * x in
  x * (1 - x2 / 6 * (1 - x2 / 20 * (1 - x2 / 42 * (1 - x2 / 72 *
      (1 - x2 / 110 * (1 - x2 / 156 * (1 - x2 / 210 * (1 - x2 / 272 *
      (1 - x2 / 342 * (1 - x2 / 420 * (1 - x2 / 506 * (1 - x2 / 600 *
      (1 - x2 / 702 * (1 - x2 / 812)))))))))))))).

Definition cos (x : float) : float :=
  let x2 := x * x in
  1 - x2 / 2 * (1 - x2 / 12 * (1 - x2 / 30 * (1 - x2 / 56 *
      (1 - x2 / 90 * (1 - x2 / 132 * (1 - x2 / 182 * (1 - x2 / 240 *
      (1 - x2 / 306 * (1 - x2 / 380 * (1 - x2 / 462 * (1 - x2 / 552 *
      (1 - x2 / 650 * (1 - x2 / 756 * (1 - x2 / 870)))))))))))))).

Fixpoint pow (x : float) (n : nat) : float :=
  match n with
  | O => 1
  | S n' => x * pow x n'
  end.

(** [Math.PI] is the double nearest to pi. *)
Definition PI : float := 0x1.921fb54442d18p+1.

Definition mathlib : MathLib float :=
  {| Math_sin := sin; Math_cos := cos; Math_PI := PI; Math_pow := pow |}.

(** A host on UTC. *)
Definition LocalTZA : Z -> Z := fun _ => 0%Z.

End TaylorHost.

(* ================================================================== *)
(** * The fallback heuristic as the design document states it *)
(* ================================================================== *)

(** The closed form of section 4.3, over the reals: a table of
    (deltaV-multiplier, time-multiplier, success-base) per propulsion, a
    payload adjustment applied multiplicatively to the two multipliers and
    additively to the success-base, then the four metrics. *)
Module Heuristic.
Local Open Scope R_scope.

Definition propulsion_table (p : PropulsionType) : R * R * R :=
  match p with
  | chemical => (1.2, 0.8, 0.6)
  | ion => (0.8, 1.2, 0.8)
  | solar_sail => (0.3, 2.0, 0.5)
  end.

Definition payload_adjustment (s : PayloadSize) : R * R * R :=
  match s with
  | small => (0.9, 0.9, 0.1)
  | medium => (1.0, 1.0, 0.0)
  | large => (1.3, 1.3, -0.1)
  end.

Definition clamp (x lo hi : R) : R := Rmax lo (Rmin hi x).

Definition deltaV_multiplier (p : UIMissionParameters) : R :=
  let '(dv, _, _) := propulsion_table (propulsionType p) in
  let '(k, _, _) := payload_adjustment (payloadSize p) in
  dv * k.

Definition time_multiplier (p : UIMissionParameters) : R :=
  let '(_, tm, _) := propulsion_table (propulsionType p) in
  let '(_, k, _) := payload_adjustment (payloadSize p) in
  tm * k.

Definition success_base (p : UIMissionParameters) : R :=
  let '(_, _, sb) := propulsion_table (propulsionType p) in
  let '(_, _, a) := payload_adjustment (payloadSize p) in
  sb + a.

Definition deltaV (p : UIMissionParameters) : R := 15 * deltaV_multiplier p.

Definition transitYears (p : UIMissionParameters) : R := 5 * time_multiplier p.

Definition successProbability (p : UIMissionParameters) : R :=
  clamp (success_base p) 0.1 0.95.

Definition propellantCost (p : UIMissionParameters) : R := deltaV p * 0.8.

End Heuristic.

(** The same closed form in any interpretation of numbers, the operations
    taken in the order the design document writes them; at binary64 it is
    what the document's formulas evaluate to on the engine. *)
Module ClosedForm.
Section Generic.
Context {num : Type} {N : Number num}.
Local Open Scope js_scope.

Definition propulsion_table (p : PropulsionType) : num * num * num :=
  match p with
  | chemical => (lit 1.2, lit 0.8, lit 0.6)
  | ion => (lit 0.8, lit 1.2, lit 0.8)
  | solar_sail => (lit 0.3, lit 2.0, lit 0.5)
  end.

Definition payload_adjustment (s : PayloadSize) : num * num * num :=
  match s with
  | small => (lit 0.9, lit 0.9, lit 0.1)
  | medium => (lit 1.0, lit 1.0, lit 0.0)
  | large => (lit 1.3, lit 1.3, lit (-0.1))
  end.

Definition clamp (x lo hi : num) : num := Math_max lo (Math_min hi x).

Definition deltaV_multiplier (p : UIMissionParameters) : num :=
  let '(dv, _, _) := propulsion_table (propulsionType p) in
  let '(k, _, _) := payload_adjustment (payloadSize p) in
  dv * k.

Definition time_multiplier (p : UIMissionParameters) : num :=
  let '(_, tm, _) := propulsion_table (propulsionType p) in
  let '(_, k, _) := payload_adjustment (payloadSize p) in
  tm * k.

Definition success_base (p : UIMissionParameters) : num :=
  let '(_, _, sb) := propulsion_table (propulsionType p) in
  let '(_, _, a) := payload_adjustment (payloadSize p) in
  sb + a.

Definition deltaV (p : UIMissionParameters) : num :=
  lit 15 * deltaV_multiplier p.

Definition transitYears (p : UIMissionParameters) : num :=
  lit 5 * time_multiplier p.

Definition successProbability (p : UIMissionParameters) : num :=
  clamp (success_base p) (lit 0.1) (lit 0.95).

Definition propellantCost (p : UIMissionParameters) : num :=
  deltaV p * lit 0.8.

End Generic.
End ClosedForm.

(* ================================================================== *)
(** * Validity of outcomes *)
(* ================================================================== *)

Section Validity.
Context {num : Type} {N : Number num}.
Local Open Scope js_scope.

(** The numeric constraints of a MissionOutcome. *)
Definition within_bounds (r : UIMissionResults num) : bool :=
  (successProbability r >=? lit 0) && (lit 1 >=? successProbability r)
  && (deltaV r >=? lit 0) && (travelTime r >=? lit 0)
  && (fuelCost r >=? lit 0).

(** [enum{pending, success, warning, failure}] *)
Definition status_known (s : string) : bool :=
  existsb (String.eqb s) ["pending"; "success"; "warning"; "failure"].

Definition valid_outcome (r : UIMissionResults num) : bool :=
  within_bounds r && status_known (missionStatus r).

End Validity.

(* ================================================================== *)
(** * Integers out of numbers *)
(* ================================================================== *)

(** An integer or an infinity, as [ToIntegerOrInfinity] returns. *)
Inductive ExtZ : Type :=
| Fin (z : Z)
| PosInf
| NegInf.

(** [Math.floor], the remainder operator [a % b], [ToIntegerOrInfinity]
    (the conversion array methods apply to an index argument) and
    [Number.isInteger]. *)
Class Rounding (num : Type) : Type := {
  Math_floor : num -> num;
  rem : num -> num -> num;
  ToIntegerOrInfinity : num -> ExtZ;
  isInteger : num -> bool
}.

(** ** Over the reals *)

(** Truncation toward zero. *)
Definition R_trunc (x : R) : Z :=
  if Rlt_dec x 0 then (- Int_part (- x))%Z else Int_part x.

(** The remainder takes the sign of the dividend: [x - y * trunc (x / y)].
    (No real number stands for the NaN of a zero divisor.) *)
Definition R_rem (x y : R) : R := (x - y * IZR (R_trunc (x / y)))%R.

Definition R_isInteger (x : R) : bool :=
  if Req_dec_T x (IZR (Int_part x)) then true else false.

#[export] Instance R_Rounding : Rounding R := {|
  Math_floor := fun x => IZR (Int_part x);
  rem := R_rem;
  ToIntegerOrInfinity := fun x => Fin (R_trunc x);
  isInteger := R_isInteger
|}.

(** ** In binary64 *)

(** The double whose value is [m * 2^e], when there is one. *)
Definition float_of_scaled (m e : Z) : float :=
  SF2Prim (binary_normalize FloatOps.prec FloatOps.emax m e false).

Definition float_floor (x : float) : float :=
  match Prim2SF x with
  | S754_finite s m (Zneg k) =>
      let q := (Zpos m / 2 ^ Zpos k)%Z in
      let r := (Zpos m mod 2 ^ Zpos k)%Z in
      if s then float_of_Z (- (if (r =? 0)%Z then q else q + 1))%Z
      else float_of_Z q
  | _ => x
  end.

Definition float_rem (x y : float) : float :=
  match Prim2SF x with
  | S754_nan | S754_infinity _ => PrimFloat.nan
  | S754_zero _ =>
      match Prim2SF y with
      | S754_nan | S754_zero _ => PrimFloat.nan
      | _ => x
      end
  | S754_finite sx mx ex =>
      match Prim2SF y with
      | S754_nan | S754_zero _ => PrimFloat.nan
      | S754_infinity _ => x
      | S754_finite _ my ey =>
          let e := Z.min ex ey in
          let r := ((Zpos mx * 2 ^ (ex - e)) mod (Zpos my * 2 ^ (ey - e)))%Z in
          if (r =? 0)%Z
          then (if sx then PrimFloat.neg_zero else PrimFloat.zero)
          else float_of_scaled (if sx then - r else r)%Z e
      end
  end.

Definition float_ToIntegerOrInfinity (x : float) : ExtZ :=
  match Prim2SF x with
  | S754_nan | S754_zero _ => Fin 0
  | S754_infinity s => if s then NegInf else PosInf
  | S754_finite s m e =>
      let magnitude :=
        match e with
        | Zneg k => (Zpos m / 2 ^ Zpos k)%Z
        | _ => (Zpos m * 2 ^ e)%Z
        end in
      Fin (if s then - magnitude else magnitude)%Z
  end.

Definition float_isInteger (x : float) : bool :=
  match Prim2SF x with
  | S754_zero _ => true
  | S754_finite _ m (Zneg k) => (Zpos m mod 2 ^ Zpos k =? 0)%Z
  | S754_finite _ _ _ => true
  | _ => false
  end.

#[export] Instance float_Rounding : Rounding float := {|
  Math_floor := float_floor;
  rem := float_rem;
  ToIntegerOrInfinity := float_ToIntegerOrInfinity;
  isInteger := float_isInteger
|}.

(** A time value as a real number, for dates that are valid (an invalid
    Date has NaN for a time value, which no real number is). *)
Definition valid_time_over_reals : TimeValue R := {|
  of_time := fun t => match t with
                      | Some ms => IZR ms
                      | None => 0%R
                      end
|}.

(* ================================================================== *)
(** * Arrays *)
(* ================================================================== *)

Section Arrays.
Context {num : Type} {F : Rounding num}.

(** The index a number names in [a[x]]: the number has to be a
    non-negative integer. *)
Definition array_index (x : num) : option nat :=
  if isInteger x then
    match ToIntegerOrInfinity x with
    | Fin z => if (0 <=? z)%Z then Some (Z.to_nat z) else None
    | _ => None
    end
  else None.

(** [a[x]], [None] for [undefined]. *)
Definition array_get {A : Type} (a : list A) (x : num) : option A :=
  match array_index x with
  | Some i => nth_error a i
  | None => None
  end.

(** [a.slice(0, finish)]: a negative [finish] counts from the end. *)
Definition slice_from_0 {A : Type} (a : list A) (finish : num) : list A :=
  match ToIntegerOrInfinity finish with
  | Fin z =>
      let len := Z.of_nat (List.length a) in
      if (z <? 0)%Z then firstn (Z.to_nat (Z.max (len + z) 0)) a
      else firstn (Z.to_nat (Z.min z len)) a
  | PosInf => a
  | NegInf => []
  end.

(** [a.filter((_, index) => keep(index))] *)
Fixpoint filter_index {A : Type} (keep : nat -> bool) (index : nat) (a : list A)
  : list A :=
  match a with
  | [] => []
  | x :: rest =>
      if keep index then x :: filter_index keep (S index) rest
      else filter_index keep (S index) rest
  end.

(** [a.map((x, index) => f(x, index))] *)
Fixpoint map_index {A B : Type} (f : A -> nat -> B) (index : nat) (a : list A)
  : list B :=
  match a with
  | [] => []
  | x :: rest => f x index :: map_index f (S index) rest
  end.

(** [points.flat()] on an array of triples. *)
Definition flat (points : list (Vec3 num)) : list num :=
  flat_map (fun '(x, y, z) => [x; y; z]) points.

End Arrays.

(* ================================================================== *)
(** * The [TrajectoryLine] component *)
(* ================================================================== *)

Section TrajectoryLine.
Context {num : Type} {N : Number num} {F : Rounding num}.
Local Open Scope js_scope.

(** The [useFrame] callback: the value of [animationProgress] after a
    frame at clock time [elapsedTime]. *)
Definition useFrame_animationProgress
    (isAnimating trailRef_current : bool) (elapsedTime animationProgress : num)
  : num :=
  if isAnimating && trailRef_current
  then rem elapsedTime (lit 10) / lit 10
  else animationProgress.

(** [Math.floor(points.length * animationProgress)] *)
Definition progress_index (points : list (Vec3 num)) (animationProgress : num)
  : num :=
  Math_floor (of_nat (List.length points) * animationProgress).

(** Position of the animated spacecraft mesh:
    [points[Math.floor(points.length * animationProgress)]]. *)
Definition spacecraft_position
    (points : list (Vec3 num)) (animationProgress : num) : option (Vec3 num) :=
  array_get points (progress_index points animationProgress).

(** The points of the animated trail:
    [points.slice(0, Math.floor(points.length * animationProgress))]. *)
Definition trail (points : list (Vec3 num)) (animationProgress : num)
  : list (Vec3 num) :=
  slice_from_0 points (progress_index points animationProgress).

(** [points.filter((_, index) => index % 10 === 0)] *)
Definition waypoints (points : list (Vec3 num)) : list (Vec3 num) :=
  filter_index (fun index => (index mod 10 =? 0)%nat) 0 points.

(** The timeline markers: each kept point with its [timeMarker], where
    [index] is the position in the filtered array. *)
Definition timeline_markers (points : list (Vec3 num)) (travelTime : num)
  : list (Vec3 num * num) :=
  map_index
    (fun point index =>
       let timeMarker := (of_nat index / lit 25) * travelTime in
       (point, timeMarker))
    0
    (filter_index (fun index => (index mod 25 =? 0)%nat) 0 points).

(** The text of a marker: [{timeMarker.toFixed(1)}y]. *)
Definition marker_label (timeMarker : num) : string :=
  (toFixed timeMarker 1 ++ "y")%string.

Definition getTrajectoryColor (propulsionType : string) : string :=
  if String.eqb propulsionType "chemical" then "#ff4444"
  else if String.eqb propulsionType "ion" then "#44ff44"
  else if String.eqb propulsionType "solar-sail" then "#4444ff"
  else "#00ff88".

Definition getTrailColor (propulsionType : string) : string :=
  if String.eqb propulsionType "chemical" then "#ff6666"
  else if String.eqb propulsionType "ion" then "#66ff66"
  else if String.eqb propulsionType "solar-sail" then "#6666ff"
  else "#00ffaa".

(** [color={isAnimating ? getTrailColor() : "#00ff88"}] of a waypoint. *)
Definition waypoint_color (isAnimating : bool) (propulsionType : string) : string :=
  if isAnimating then getTrailColor propulsionType else "#00ff88".

End TrajectoryLine.

(* ================================================================== *)
(** * The [MetricsPanel] component *)
(* ================================================================== *)

Section MetricsPanel.
Context {num : Type} {N : Number num}.
Local Open Scope js_scope.

Definition getSuccessColor (probability : num) : string :=
  if probability >=? lit 0.8 then "text-green-400"
  else if probability >=? lit 0.6 then "text-yellow-400"
  else "text-red-400".

Definition getSuccessGradient (probability : num) : string :=
  if probability >=? lit 0.8 then "from-green-500 to-emerald-500"
  else if probability >=? lit 0.6 then "from-yellow-500 to-orange-500"
  else "from-red-500 to-pink-500".

(** Width of a capped bar, in percent:
    [Math.min((value / full) * 100, 100)]. *)
Definition capped_bar (value full : num) : num :=
  Math_min ((value / full) * lit 100) (lit 100).

Definition travelTime_bar (results : UIMissionResults num) : num :=
  capped_bar (travelTime results) (lit 10).

Definition deltaV_bar (results : UIMissionResults num) : num :=
  capped_bar (deltaV results) (lit 20).

Definition fuelCost_bar (results : UIMissionResults num) : num :=
  capped_bar (fuelCost results) (lit 50).

(** The success bar has no cap: [results.successProbability * 100]. *)
Definition success_bar (results : UIMissionResults num) : num :=
  successProbability results * lit 100.

(** The four figures as shown. *)
Definition metric_texts (results : UIMissionResults num) : list string :=
  [ toFixed (travelTime results) 1 ++ " years";
    toFixed (deltaV results) 1 ++ " km/s";
    toFixed (successProbability results * lit 100) 0 ++ "%";
    toFixed (fuelCost results) 1 ++ " units" ]%string.

End MetricsPanel.

(* ================================================================== *)
(** * Scene decoration: engine flame and comet tail *)
(* ================================================================== *)

Section Decoration.
Context {num : Type} {N : Number num} {M : MathLib num}.
Local Open Scope js_scope.

(** [AdvancedSpacecraft]'s [useFrame]: the engine's [scale.y] after a
    frame at clock time [elapsedTime]. *)
Definition useFrame_engine_scale
    (engineRef_current isAnimating : bool) (elapsedTime scale_y : num) : num :=
  if engineRef_current && isAnimating
  then lit 1 + Math_sin (elapsedTime * lit 10) * lit 0.2
  else scale_y.

(** One particle of the comet tail, from three values of [Math.random()]. *)
Definition tail_point (r_angle r_radius r_height : num) : Vec3 num :=
  let angle := r_angle * Math_PI * lit 2 in
  let radius := r_radius * lit 0.5 + lit 0.1 in
  let height := r_height * lit 2 - lit 1 in
  (Math_cos angle * radius, height, Math_sin angle * radius).

(** [tailPoints]: a hundred particles; [random k] is the value of the
    [k]-th call of [Math.random()]. *)
Definition tailPoints (random : nat -> num) : list (Vec3 num) :=
  fold_left
    (fun points i =>
       (points ++ [tail_point (random (3 * i)%nat) (random (3 * i + 1)%nat)
                     (random (3 * i + 2)%nat)])%list)
    (seq 0 100) [].

End Decoration.

(* ================================================================== *)
(** * The service address (src/services/api.ts) *)
(* ================================================================== *)

(** [envUrl || (isLocal ? 'http://localhost:8000' : hosted)], where
    [envUrl] is [process.env.REACT_APP_API_URL] ([None] when unset) and
    [window_hostname] is [window.location.hostname] ([None] when there is
    no [window]).  The empty string is falsy. *)
Definition API_BASE_URL (envUrl window_hostname : option string) : string :=
  let isLocal :=
    match window_hostname with
    | Some hostname => String.eqb hostname "localhost"
    | None => false
    end in
  match envUrl with
  | Some (String c rest) => String c rest
  | _ =>
      if isLocal then "http://localhost:8000"
      else "https://newton-backend.onrender.com"
  end.

(* ================================================================== *)
(** * The host a call runs on *)
(* ================================================================== *)

(** What a call can read or change besides its arguments: the wall clock
    (read by [new Date()], as [MissionLog] does for its time stamps), the
    time-zone rules (read by [new Date(s)] for a local date-time) and the
    position in the stream of [Math.random()] (advanced by every draw, as
    in [RealisticAtlas]). *)
Record Host : Type := {
  clock : Z;
  zone : Z -> Z;
  drawn : nat
}.

(** A call on a host: its value and the host it leaves behind. *)
Definition HostM (A : Type) : Type := Host -> A * Host.

Definition host_ret {A : Type} (a : A) : HostM A := fun h => (a, h).

Definition host_bind {A B : Type} (c : HostM A) (k : A -> HostM B) : HostM B :=
  fun h => let '(a, h') := c h in k a h'.

(** [new Date(s)] *)
Definition new_Date (s : string) : HostM JSDate :=
  fun h => (Date_new (zone h) s, h).

(** [new Date()] *)
Definition new_Date_now : HostM JSDate :=
  fun h => (Some (clock h), h).

(** [Math.random()], the stream being [random]. *)
Definition Math_random {num : Type} (random : nat -> num) : HostM num :=
  fun h =>
    (random (drawn h),
     {| clock := clock h; zone := zone h; drawn := S (drawn h) |}).

Section PositionCall.
Context {num : Type} {N : Number num} {M : MathLib num} {T : TimeValue num}.
Local Open Scope js_scope.

(** A call of [getTimeBasedPositions], statement by statement, on a host. *)
Definition getTimeBasedPositions_call (props : SpaceSceneProps num)
  : HostM (Positions num) :=
  host_bind (new_Date (scene_launchDate props)) (fun launch =>
  host_bind (new_Date "2025-10-30") (fun optimalDate =>
  let daysDiff :=
    (getTime launch - getTime optimalDate)
    / (lit 1000 * lit 60 * lit 60 * lit 24) in
  let earthOrbitalPhase := (daysDiff / lit 365.25) * lit 2 * Math_PI in
  let earthPosition :=
    (lit (-3) + lit 0.3 * Math_cos earthOrbitalPhase,
     lit 0.3 * Math_sin earthOrbitalPhase,
     lit 0) in
  let timeFromPerihelion := daysDiff / lit 365.25 in
  let perihelionDistance := lit 1.4 in
  let currentDistance :=
    perihelionDistance + Math_abs timeFromPerihelion * lit 2.0 in
  let scaledDistance := currentDistance * lit 2 in
  let atlasPosition :=
    (scaledDistance, lit 3 + timeFromPerihelion * lit 0.5, lit 0) in
  host_ret {| earthPosition := earthPosition;
              atlasPosition := atlasPosition;
              currentDistance := currentDistance;
              timeFromPerihelion := timeFromPerihelion |})).

(** Two calls one after the other, as two renders of the scene make
    them. *)
Definition two_calls (props1 props2 : SpaceSceneProps num)
  : HostM (Positions num * Positions num) :=
  host_bind (getTimeBasedPositions_call props1) (fun p1 =>
  host_bind (getTimeBasedPositions_call props2) (fun p2 =>
  host_ret (p1, p2))).

End PositionCall.

(* ================================================================== *)
(** * Notions used in the statements *)
(* ================================================================== *)

(** An event other than the settling of a request. *)
Definition not_settle {num} (e : Event num) : bool :=
  match e with
  | settle _ _ => false
  | _ => true
  end.

(** Exactly one run is in flight; it captured [captured] when it began
    and the banner is cleared. *)
Definition flying {num} (captured : UIMissionParameters) (w : World num) : Prop :=
  isSimulating (app w) = true /\ inflight w = [captured]
  /\ apiError (app w) = None.

(** What the page can show: never the spinner and the animation together,
    and a banner only over an idle, animating page that holds a local
    estimate. *)
Definition display_consistent {num} {N : Number num} (st : AppState num) : Prop :=
  isSimulating st && isAnimating st = false
  /\ match apiError st with
     | None => True
     | Some notice =>
         notice = offline_notice /\ isSimulating st = false
         /\ isAnimating st = true
         /\ exists p, results st = fallbackResults p
     end.

(** A parameter object from its three fields. *)
Definition mission (d : string) (p : PropulsionType) (s : PayloadSize)
  : UIMissionParameters :=
  {| launchDate := d; propulsionType := p; payloadSize := s |}.

(** [a < b && b < c] on doubles. *)
Definition ascending (a b c : float) : bool :=
  PrimFloat.ltb a b && PrimFloat.ltb b c.

(** [t = i / segments], the loop's curve parameter at counter [i]. *)
Definition course_fraction (segments i : nat) : R :=
  div (of_nat (num := R) i) (of_nat segments).

(** The greatest height a curve adds above the higher endpoint. *)
Definition arc_height (v : string) : R :=
  if String.eqb v "chemical" then 0.5%R
  else if String.eqb v "ion" then 0.75%R
  else if String.eqb v "solar-sail" then 3%R
  else 0%R.

(* ================================================================== *)
(** * Sample data *)
(* ================================================================== *)

(** A response the service is free to send: status 200, metrics outside
    the ranges of the data model. *)
Definition out_of_range_response : MissionResults R :=
  {| travel_time := (-1)%R; delta_v := (-1)%R; success_probability := 2%R;
     mission_log := []; fuel_cost := (-1)%R; mission_status := "success" |}.

(** Two renders of the scene at the same launch date. *)
Definition scene_idle : SpaceSceneProps float :=
  {| scene_missionResults := pendingResults;
     scene_isAnimating := false;
     scene_propulsionType := "ion";
     scene_launchDate := "2025-10-30T10:00" |}.

Definition scene_animating : SpaceSceneProps float :=
  {| scene_missionResults :=
       fallbackResults
         {| launchDate := "2025-10-30T10:00"; propulsionType := chemical;
            payloadSize := large |};
     scene_isAnimating := true;
     scene_propulsionType := "chemical";
     scene_launchDate := "2025-10-30T10:00" |}.

Definition scene_at (date : string) : SpaceSceneProps float :=
  {| scene_missionResults := pendingResults;
     scene_isAnimating := false;
     scene_propulsionType := "ion";
     scene_launchDate := date |}.

Definition scene_origin : Vec3 R := (0, 0, 0)%R.

(** The largest double and its opposite, as coordinates. *)
Definition far_right : Vec3 float :=
  (0x1.fffffffffffffp+1023, 0, 0)%float.

Definition far_left : Vec3 float :=
  (-0x1.fffffffffffffp+1023, 0, 0)%float.

(** The scene over the reals, at a given launch date. *)
Definition scene_over_reals (date : string) : SpaceSceneProps R :=
  {| scene_missionResults := pendingResults;
     scene_isAnimating := false;
     scene_propulsionType := "ion";
     scene_launchDate := date |}.

(** A host on UTC. *)
Definition utc : Z -> Z := fun _ => 0%Z.

Definition scene_target : Vec3 R := (4, 3, 0)%R.

(** A random source that always answers one half. *)
Definition one_half : nat -> R := fun _ => (/ 2)%R.

(** In binary64, on the ion curve of the default scene: does the frame at
    clock time [clock] put the spacecraft on a point of the curve, with the
    trail ending just before it? *)
Definition on_curve (clock : float) : bool :=
  let pos := getTimeBasedPositions (M := TaylorHost.mathlib)
               TaylorHost.LocalTZA scene_idle in
  let points := getTrajectoryPoints (M := TaylorHost.mathlib) "ion"
                  (earthPosition pos) (atlasPosition pos) in
  let animationProgress := useFrame_animationProgress true true clock 0%float in
  match spacecraft_position points animationProgress,
        array_index (progress_index points animationProgress) with
  | Some _, Some i => Nat.eqb (List.length (trail points animationProgress)) i
  | _, _ => false
  end.

(** Two moments on a host on UTC, and a host on UTC+05:30. *)
Definition host_morning : Host :=
  {| clock := 1761818400000; zone := utc; drawn := 0 |}.

Definition host_later : Host :=
  {| clock := 1761818460000; zone := utc; drawn := 300 |}.

Definition host_kolkata : Host :=
  {| clock := 1761818460000; zone := fun _ => 19800000%Z; drawn := 7 |}.

(* ================================================================== *)
(** * Proof support *)
(* ================================================================== *)

(** Expose the real arithmetic behind the interface and decide it. *)
Ltac real_arith :=
  cbv [Q2R Qnum Qden R_gtb R_geb Rmax Rmin
       Heuristic.deltaV Heuristic.transitYears Heuristic.successProbability
       Heuristic.propellantCost Heuristic.deltaV_multiplier
       Heuristic.time_multiplier Heuristic.success_base Heuristic.clamp
       Heuristic.propulsion_table Heuristic.payload_adjustment
       propulsionType payloadSize] in *;
  repeat match goal with
         | |- context [Rle_dec ?a ?b] => destruct (Rle_dec a b)
         | |- context [Rlt_dec ?a ?b] => destruct (Rlt_dec a b)
         | H : context [Rle_dec ?a ?b] |- _ => destruct (Rle_dec a b)
         | H : context [Rlt_dec ?a ?b] |- _ => destruct (Rlt_dec a b)
         end;
  try reflexivity; try lra; try (exfalso; lra).

(** Case split on the two enumerations of a parameter object. *)
Ltac each_mission p :=
  let d := fresh "launch" in
  let pr := fresh "prop" in
  let pa := fresh "pay" in
  destruct p as [d pr pa]; destruct pr, pa.

(** Equality of points, coordinate by coordinate. *)
Ltac vec3_eq := apply (f_equal2 pair); [apply (f_equal2 pair)|].

(** Expose the real arithmetic of a curve and decide it. *)
Ltac curve_arith :=
  cbn [lit add sub mul div Math_max Math_min Math_sin Math_PI Math_pow
       R_Number R_MathLib pow];
  cbv [Q2R Qnum Qden];
  rewrite ?Rmult_1_l, ?Rmult_0_l, ?sin_0, ?sin_PI;
  try (unfold Rdiv; ring); lra.

(** Case split on the propulsion string of a curve. *)
Ltac curve_cases v :=
  destruct (String.eqb v "chemical");
  [|destruct (String.eqb v "ion"); [|destruct (String.eqb v "solar-sail")]].

(** Expose the real arithmetic of a curve, leaving the goal in place. *)
Ltac curve_unfold :=
  cbv zeta;
  cbn [lit add sub mul div Math_max Math_min Math_sin Math_PI Math_pow
       R_Number R_MathLib pow fst snd];
  cbv [Q2R Qnum Qden].

(** The rational a closed real expression denotes. *)
Ltac reify_Q e :=
  lazymatch e with
  | (?a + ?b)%R =>
      let x := reify_Q a in let y := reify_Q b in constr:(Qplus x y)
  | (?a - ?b)%R =>
      let x := reify_Q a in let y := reify_Q b in constr:(Qminus x y)
  | (?a * ?b)%R =>
      let x := reify_Q a in let y := reify_Q b in constr:(Qmult x y)
  | (?a / ?b)%R =>
      let x := reify_Q a in let y := reify_Q b in constr:(Qdiv x y)
  | (- ?a)%R => let x := reify_Q a in constr:(Qopp x)
  | (/ ?a)%R => let x := reify_Q a in constr:(Qinv x)
  | IZR ?z => constr:(inject_Z z)
  end.

(** Decide the comparisons between closed real expressions, innermost
    first. *)
Ltac decide_Rle :=
  repeat match goal with
         | |- context [Rle_dec ?a ?b] =>
             first [ assert (a <= b)%R by lra;
                     destruct (Rle_dec a b); [|contradiction]
                   | assert (~ (a <= b)%R) by lra;
                     destruct (Rle_dec a b); [contradiction|] ]
         end.

(** Evaluate [toFixed] over the reals on closed expressions: the sign test,
    then the integer part by [ratio], the integer part of a quotient of
    integers. *)
Ltac eval_Int_part ratio :=
  repeat match goal with
         | |- context [Rlt_dec ?e 0] =>
             destruct (Rlt_dec e 0); [exfalso; lra|]
         | |- context [Int_part ?e] =>
             let q := reify_Q e in
             let r := eval vm_compute in (Qred q) in
             lazymatch r with
             | Qmake ?a ?b =>
                 replace e with (IZR a / IZR (Zpos b))%R by lra;
                 rewrite (ratio a (Zpos b)) by reflexivity
             end
         end.

(* ================================================================== *)
(** * Literals in binary64 *)
(* ================================================================== *)

(** The inexact decimal literals of the source denote these doubles. *)
Lemma float_literals :
  lit 0.1 = 0x1.999999999999ap-4%float
  /\ lit 0.3 = 0x1.3333333333333p-2%float
  /\ lit 0.6 = 0x1.3333333333333p-1%float
  /\ lit 0.7 = 0x1.6666666666666p-1%float
  /\ lit 0.8 = 0x1.999999999999ap-1%float
  /\ lit 0.9 = 0x1.ccccccccccccdp-1%float
  /\ lit 0.95 = 0x1.e666666666666p-1%float
  /\ lit 1.2 = 0x1.3333333333333p+0%float
  /\ lit 1.3 = 0x1.4cccccccccccdp+0%float
  /\ lit 1.4 = 0x1.6666666666666p+0%float
  /\ lit 365.25 = 0x1.6d4p+8%float
  /\ lit (-3) = (-0x1.8p+1)%float.
Proof. vm_compute. repeat split. Qed.

(** [toFixed] rounds the exact value of the double, ties upward. *)
Example toFixed_samples :
  toFixed 0x1p-2%float 1 = "0.3"
  /\ toFixed 0x1.6666666666666p-2%float 1 = "0.3"
  /\ toFixed 0x1.0147ae147ae14p+0%float 2 = "1.00"
  /\ toFixed 0x1.4p+1%float 0 = "3"
  /\ toFixed (-0x1p-7)%float 1 = "-0.0"
  /\ toFixed PrimFloat.nan 1 = "NaN".
Proof. vm_compute. repeat split. Qed.

(** [new Date] on the forms the engine meets. *)
Example Date_samples :
  Date_new TaylorHost.LocalTZA "2025-10-30" = Some 1761782400000%Z
  /\ Date_new TaylorHost.LocalTZA "2025-10-30T10:00" = Some 1761818400000%Z
  /\ Date_new (fun _ => 19800000%Z) "2025-10-30T10:00" = Some 1761798600000%Z
  /\ Date_new TaylorHost.LocalTZA "2000-03-01T00:00+05:30" = Some 951849000000%Z
  /\ Date_new TaylorHost.LocalTZA "2025-13-01" = None
  /\ Date_new TaylorHost.LocalTZA "" = None.
Proof. vm_compute. repeat split. Qed.

(* ================================================================== *)
(** * What a run does, by the fate of its request *)
(* ================================================================== *)

Section ResumeFacts.
Context {num : Type} {N : Number num}.

Lemma resume_rejected captured (e : Thrown) (st : AppState num) :
  simulateMission_resume captured (Throw e) st =
  (Normal tt,
   {| parameters := parameters st;
      results := fallbackResults captured;
      isSimulating := false;
      isAnimating := true;
      apiError := Some offline_notice |}).
Proof. reflexivity. Qed.

Lemma resume_null_body captured (st : AppState num) :
  simulateMission_resume captured (Normal None) st =
  (Normal tt,
   {| parameters := parameters st;
      results := fallbackResults captured;
      isSimulating := false;
      isAnimating := true;
      apiError := Some offline_notice |}).
Proof. reflexivity. Qed.

Lemma resume_fulfilled captured (data : MissionResults num) (st : AppState num) :
  simulateMission_resume captured (Normal (Some data)) st =
  (Normal tt,
   {| parameters := parameters st;
      results := adopt data;
      isSimulating := false;
      isAnimating := true;
      apiError := apiError st |}).
Proof. reflexivity. Qed.

Lemma resume_clears_isSimulating captured reply (st : AppState num) :
  isSimulating (snd (simulateMission_resume captured reply st)) = false.
Proof. destruct reply as [[data|]|e]; reflexivity. Qed.

(** The fate of the request as the handler sees it. *)
Lemma missionAPI_simulate_remote (x : Exchange num) :
  match remote_results x with
  | Some data => missionAPI_simulate x = Normal (Some data)
  | None => missionAPI_simulate x = Normal None
            \/ exists e, missionAPI_simulate x = Throw e
  end.
Proof.
  unfold remote_results, missionAPI_simulate, api_post.
  destruct x as [status [data|]| |]; eauto;
    destruct ((200 <=? status) && (status <? 300))%Z; eauto.
Qed.

Lemma delegation_failed_http (status : Z) (data : option (MissionResults num)) :
  delegation_failed (http_response status data)
  = negb ((200 <=? status) && (status <? 300))%Z
    || match data with Some _ => false | None => true end.
Proof.
  unfold delegation_failed, remote_results.
  destruct data; destruct ((200 <=? status) && (status <? 300))%Z; reflexivity.
Qed.

(** One whole run. *)
Lemma simulateMission_run (x : Exchange num) (st : AppState num) :
  simulateMission x st =
  (Normal tt,
   match remote_results x with
   | Some data =>
       {| parameters := parameters st;
          results := adopt data;
          isSimulating := false;
          isAnimating := true;
          apiError := None |}
   | None =>
       {| parameters := parameters st;
          results := fallbackResults (parameters st);
          isSimulating := false;
          isAnimating := true;
          apiError := Some offline_notice |}
   end).
Proof.
  unfold simulateMission, missionAPI_simulate, api_post, remote_results.
  cbn [simulateMission_begin].
  destruct x as [status [data|]| |]; try reflexivity;
    destruct ((200 <=? status) && (status <? 300))%Z; reflexivity.
Qed.

Lemma simulateMission_results (x : Exchange num) (st : AppState num) :
  results (snd (simulateMission x st)) =
  match remote_results x with
  | Some data => adopt data
  | None => fallbackResults (parameters st)
  end.
Proof. rewrite simulateMission_run. destruct (remote_results x); reflexivity. Qed.

End ResumeFacts.

(* ================================================================== *)
(** * The fallback outcome *)
(* ================================================================== *)

(** C1, as stated, fails on the engine in its last digit: for ion with a
    medium payload the stored propellant cost is the double just above the
    one nearest to 9.6. *)
Lemma C1_counterexample :
  let r := results (snd (simulateMission_resume (num := float)
                           (mission "2025-10-30" ion medium)
                           (Throw ERR_NETWORK) initialState)) in
  fuelCost r <> lit 9.6
  /\ PrimFloat.eqb (fuelCost r) (lit 9.6) = false
  /\ PrimFloat.ltb (lit 9.6) (fuelCost r) = true.
Proof.
  vm_compute. split; [|split; reflexivity].
  intros H.
  apply (f_equal (fun x => PrimFloat.eqb x 0x1.3333333333333p+3%float)) in H.
  vm_compute in H. discriminate H.
Qed.

(** C1, amended.  When the request is rejected, whatever the reason, the
    stored outcome is the closed-form heuristic: deltaV = 15 x
    deltaV-multiplier, transitYears = 5 x time-multiplier,
    successProbability = clamp(success-base, 0.1, 0.95), propellantCost =
    deltaV x 0.8, with the propulsion table and the payload adjustment of
    the design document.  This holds on the engine, where every operation
    is a binary64 operation ([ClosedForm] at [float]), and in exact
    arithmetic ([Heuristic]).  On the engine ion with a medium payload
    yields (12, 6, 0.8, 9.600000000000001, "success") and solar sail with
    a large payload yields (5.8500000000000005, 13, 0.4, "warning"); in
    exact arithmetic, and as printed to one and two decimals, the two long
    figures are 9.6 and 5.85. *)
Theorem C1_fallback_closed_form :
  (forall (captured : UIMissionParameters) (e : Thrown) (st : AppState float),
      let r := results (snd (simulateMission_resume captured (Throw e) st)) in
      deltaV r = ClosedForm.deltaV captured
      /\ travelTime r = ClosedForm.transitYears captured
      /\ successProbability r = ClosedForm.successProbability captured
      /\ fuelCost r = ClosedForm.propellantCost captured
      /\ fuelCost r = PrimFloat.mul (deltaV r) (lit 0.8))
  /\ (forall (captured : UIMissionParameters) (e : Thrown) (st : AppState R),
         let r := results (snd (simulateMission_resume captured (Throw e) st)) in
         deltaV r = Heuristic.deltaV captured
         /\ travelTime r = Heuristic.transitYears captured
         /\ successProbability r = Heuristic.successProbability captured
         /\ fuelCost r = Heuristic.propellantCost captured
         /\ fuelCost r = (deltaV r * 0.8)%R)
  /\ (forall (d : string) (e : Thrown) (st : AppState float),
         let captured := mission d ion medium in
         let r := results (snd (simulateMission_resume captured (Throw e) st)) in
         deltaV r = 12%float /\ travelTime r = 6%float
         /\ successProbability r = lit 0.8
         /\ fuelCost r = 0x1.3333333333334p+3%float
         /\ toFixed (fuelCost r) 1 = "9.6"
         /\ missionStatus r = "success")
  /\ (forall (d : string) (e : Thrown) (st : AppState float),
         let captured := mission d solar_sail large in
         let r := results (snd (simulateMission_resume captured (Throw e) st)) in
         deltaV r = 0x1.7666666666667p+2%float
         /\ toFixed (deltaV r) 2 = "5.85"
         /\ travelTime r = 13%float
         /\ successProbability r = lit 0.4
         /\ missionStatus r = "warning")
  /\ (forall (d : string) (e : Thrown) (st : AppState R),
         let captured := mission d ion medium in
         let r := results (snd (simulateMission_resume captured (Throw e) st)) in
         deltaV r = 12%R /\ travelTime r = 6%R /\ successProbability r = 0.8%R
         /\ fuelCost r = 9.6%R /\ missionStatus r = "success")
  /\ (forall (d : string) (e : Thrown) (st : AppState R),
         let captured := mission d solar_sail large in
         let r := results (snd (simulateMission_resume captured (Throw e) st)) in
         deltaV r = 5.85%R /\ travelTime r = 13%R /\ successProbability r = 0.4%R
         /\ missionStatus r = "warning").
Proof.
  split; [|split; [|split; [|split; [|split]]]].
  - intros captured e st r. subst r. rewrite resume_rejected.
    cbn [snd results]. each_mission captured; vm_compute; repeat split.
  - intros captured e st r. subst r. rewrite resume_rejected.
    cbn [snd results]. each_mission captured; cbn; repeat split; real_arith.
  - intros d e st captured r. subst r captured. rewrite resume_rejected.
    vm_compute. repeat split.
  - intros d e st captured r. subst r captured. rewrite resume_rejected.
    vm_compute. repeat split.
  - intros d e st captured r. subst r captured. rewrite resume_rejected.
    cbn; repeat split; real_arith.
  - intros d e st captured r. subst r captured. rewrite resume_rejected.
    cbn; repeat split; real_arith.
Qed.

(** The same two scenarios in binary64.  The products [12 * 0.8] and
    [15 * (0.3 * 1.3)] round one unit in the last place above the doubles
    nearest to 9.6 and 5.85; every other metric is the nearest double. *)
Lemma binary64_scenario_A (d : string) :
  let r := fallbackResults (num := float)
             {| launchDate := d; propulsionType := ion; payloadSize := medium |} in
  deltaV r = 12%float /\ travelTime r = 6%float
  /\ successProbability r = lit 0.8
  /\ PrimFloat.sub (fuelCost r) (lit 9.6) = 0x1p-49%float
  /\ missionStatus r = "success"
  /\ missionLog r = [ "⚠️ Offline mode - API unavailable";
                      "Mission parameters: ion propulsion, medium payload";
                      "Calculated ΔV requirement: 12.0 km/s";
                      "Estimated travel time: 6.0 years";
                      "Mission success probability: 80%" ].
Proof. vm_compute. repeat split. Qed.

Lemma binary64_scenario_B (d : string) :
  let r := fallbackResults (num := float)
             {| launchDate := d; propulsionType := solar_sail; payloadSize := large |} in
  PrimFloat.sub (deltaV r) (lit 5.85) = 0x1p-50%float
  /\ travelTime r = 13%float
  /\ successProbability r = lit 0.4
  /\ missionStatus r = "warning".
Proof. vm_compute. repeat split. Qed.

(** C6.  The fallback status is "success" exactly when the computed success
    probability is strictly greater than 0.7, and "warning" otherwise; over
    the reals the comparison is the order of the real line. *)
Theorem C6_fallback_status :
  (forall (num : Type) (N : Number num) (p : UIMissionParameters),
      let r := fallbackResults p in
      (missionStatus r = "success" <-> gtb (successProbability r) (lit 0.7) = true)
      /\ (missionStatus r = "warning" <-> gtb (successProbability r) (lit 0.7) = false))
  /\ (forall p : UIMissionParameters,
         let r := fallbackResults (num := R) p in
         (missionStatus r = "success" <-> (successProbability r > 0.7)%R)
         /\ (missionStatus r = "warning" <-> ~ (successProbability r > 0.7)%R)).
Proof.
  split.
  - intros num N p r. subst r. unfold fallbackResults.
    cbn [missionStatus successProbability].
    destruct (gtb _ _); split; split; intros H; try reflexivity; discriminate H.
  - intros p r. subst r. unfold fallbackResults.
    cbn [missionStatus successProbability gtb R_Number].
    set (s := Math_max _ _). unfold R_gtb.
    destruct (Rlt_dec (lit 0.7) s) as [Hlt | Hge];
      cbv [lit R_Number Q2R Qnum Qden] in *;
      split; split; intros H; try reflexivity; try discriminate H; lra.
Qed.

(** Rounding decides the status at the boundary: ion with a large payload
    has success-base [0.8 - 0.1], which is 0.7 over the reals (not above the
    threshold) and the double just above 0.7 in binary64. *)
Lemma ion_large_status (d : string) :
  let p := {| launchDate := d; propulsionType := ion; payloadSize := large |} in
  missionStatus (fallbackResults (num := R) p) = "warning"
  /\ missionStatus (fallbackResults (num := float) p) = "success".
Proof.
  split; [|vm_compute; reflexivity].
  cbn. real_arith.
Qed.

(** C9.  For every propulsion variant and payload class the adjusted
    success-base lies in [0.4, 0.9]; the clamp to [0.1, 0.95] returns it
    unchanged and neither clamp bound is attained.  Over the reals and in
    binary64. *)
Theorem C9_clamp_is_identity :
  (forall p : UIMissionParameters,
      let sb := successBase (adjusted_multipliers (num := R) p) in
      (0.4 <= sb <= 0.9)%R
      /\ successProbability (fallbackResults p) = sb
      /\ sb <> 0.1%R /\ sb <> 0.95%R)
  /\ (forall p : UIMissionParameters,
         let sb := successBase (adjusted_multipliers (num := float) p) in
         PrimFloat.leb (lit 0.4) sb = true /\ PrimFloat.leb sb (lit 0.9) = true
         /\ successProbability (fallbackResults p) = sb
         /\ PrimFloat.eqb sb (lit 0.1) = false
         /\ PrimFloat.eqb sb (lit 0.95) = false).
Proof.
  split; intros p sb; subst sb.
  - each_mission p; cbn; repeat split; real_arith.
  - each_mission p; vm_compute; repeat split.
Qed.

(* ================================================================== *)
(** * Validity of what a run stores *)
(* ================================================================== *)

Lemma fallback_valid_real (p : UIMissionParameters) :
  valid_outcome (fallbackResults (num := R) p) = true.
Proof.
  each_mission p; unfold valid_outcome, within_bounds, status_known; cbn;
    real_arith.
Qed.

Lemma fallback_valid_binary64 (p : UIMissionParameters) :
  valid_outcome (fallbackResults (num := float) p) = true.
Proof. each_mission p; vm_compute; reflexivity. Qed.

Lemma fallback_bounds_real (p : UIMissionParameters) :
  let r := fallbackResults (num := R) p in
  (0 <= successProbability r <= 1 /\ 0 <= deltaV r /\ 0 <= travelTime r
   /\ 0 <= fuelCost r)%R.
Proof. each_mission p; cbn; repeat split; real_arith. Qed.

(** C4, as stated, fails on the remote path: the response is stored as it
    comes, so a success probability of 2 and negative metrics are stored. *)
Lemma C4_counterexample :
  ~ (0 <= successProbability
            (results (snd (simulateMission
                             (http_response 200 (Some out_of_range_response))
                             initialState))) <= 1)%R
  /\ ~ (0 <= deltaV
               (results (snd (simulateMission
                                (http_response 200 (Some out_of_range_response))
                                initialState))))%R.
Proof. cbn. split; lra. Qed.

(** C4, amended.  A run that settles through the fallback stores an
    outcome with successProbability in [0,1] and non-negative deltaV,
    transitYears and propellantCost (over the reals and in binary64); a
    run that settles through the remote path stores the response field
    for field, unvalidated. *)
Theorem C4_settled_outcome_bounds :
  (forall (x : Exchange R) (st : AppState R),
      let r := results (snd (simulateMission x st)) in
      match remote_results x with
      | None =>
          (0 <= successProbability r <= 1 /\ 0 <= deltaV r
           /\ 0 <= travelTime r /\ 0 <= fuelCost r)%R
      | Some data =>
          travelTime r = travel_time data /\ deltaV r = delta_v data
          /\ successProbability r = success_probability data
          /\ missionLog r = mission_log data /\ fuelCost r = fuel_cost data
          /\ missionStatus r = mission_status data
      end)
  /\ (forall (x : Exchange float) (st : AppState float),
         let r := results (snd (simulateMission x st)) in
         match remote_results x with
         | None => within_bounds r = true
         | Some data => r = adopt data
         end).
Proof.
  split; intros x st r; subst r; rewrite simulateMission_results;
    destruct (remote_results x) as [data|].
  - repeat split.
  - apply fallback_bounds_real.
  - reflexivity.
  - pose proof (fallback_valid_binary64 (parameters st)) as H.
    unfold valid_outcome in H. apply andb_true_iff in H. apply H.
Qed.

(** C3.  A run of [simulateMission] completes normally whatever the fate of
    its request.  On every failure (no response, timeout, status outside
    [200, 300), a body with nothing to read) it stores the fallback outcome
    of the submitted parameters and raises the degraded-mode notice in
    [apiError], a state cell of its own; on success [apiError] is left
    cleared.  Whatever is thrown at the [await] is handled the same way.
    The fallback outcome is a valid MissionOutcome over the reals and in
    binary64. *)
Theorem C3_no_failure_escapes :
  (forall (num : Type) (N : Number num) (x : Exchange num) (st : AppState num),
      fst (simulateMission x st) = Normal tt
      /\ isSimulating (snd (simulateMission x st)) = false
      /\ (if delegation_failed x
          then results (snd (simulateMission x st))
               = fallbackResults (parameters st)
               /\ apiError (snd (simulateMission x st)) = Some offline_notice
          else apiError (snd (simulateMission x st)) = None))
  /\ (forall (num : Type) (status : Z) (data : option (MissionResults num)),
         delegation_failed (http_response status data)
         = negb ((200 <=? status) && (status <? 300))%Z
           || match data with Some _ => false | None => true end)
  /\ delegation_failed (num := R) network_error = true
  /\ delegation_failed (num := R) timeout = true
  /\ (forall (num : Type) (N : Number num) (captured : UIMissionParameters)
             (e : Thrown) (st : AppState num),
         simulateMission_resume captured (Throw e) st
         = (Normal tt,
            {| parameters := parameters st;
               results := fallbackResults captured;
               isSimulating := false;
               isAnimating := true;
               apiError := Some offline_notice |}))
  /\ (forall p, valid_outcome (fallbackResults (num := R) p) = true)
  /\ (forall p, valid_outcome (fallbackResults (num := float) p) = true).
Proof.
  repeat apply conj.
  - intros num N x st. rewrite simulateMission_run. unfold delegation_failed.
    destruct (remote_results x); cbn; auto.
  - intros. apply delegation_failed_http.
  - reflexivity.
  - reflexivity.
  - intros. apply resume_rejected.
  - apply fallback_valid_real.
  - apply fallback_valid_binary64.
Qed.

(** C10.  [resetMission] installs the pending outcome (all metrics zero,
    empty log, status "pending", the outcome of the first render), clears
    [isAnimating] and [apiError], and leaves the selected parameters (and
    [isSimulating]) as they were. *)
Theorem C10_reset_frame :
  forall (num : Type) (N : Number num) (st : AppState num),
    results (resetMission st)
    = {| travelTime := lit 0; deltaV := lit 0; successProbability := lit 0;
         missionLog := []; fuelCost := lit 0; missionStatus := "pending" |}
    /\ results (resetMission st) = results initialState
    /\ isAnimating (resetMission st) = false
    /\ apiError (resetMission st) = None
    /\ parameters (resetMission st) = parameters st
    /\ launchDate (parameters (resetMission st)) = launchDate (parameters st)
    /\ propulsionType (parameters (resetMission st)) = propulsionType (parameters st)
    /\ payloadSize (parameters (resetMission st)) = payloadSize (parameters st)
    /\ isSimulating (resetMission st) = isSimulating st.
Proof. intros. repeat split. Qed.

(* ================================================================== *)
(** * Single flight *)
(* ================================================================== *)

Section SingleFlight.
Context {num : Type} {N : Number num}.

Lemma single_flight_initial : single_flight initialWorld.
Proof. split; reflexivity. Qed.

Lemma single_flight_step (w : World num) (e : Event num) :
  single_flight w -> single_flight (step w e).
Proof.
  intros [Hfl Hst]. destruct e as [ | | p | i x]; cbn [step].
  - unfold ControlPanel_simulate_button.
    destruct (isSimulating (app w)) eqn:Hsim;
      [split; [rewrite Hsim|]; assumption|].
    split; cbn.
    + rewrite List.length_app, Hfl. reflexivity.
    + rewrite List.length_app, Hst. cbn. lia.
  - split; cbn; assumption.
  - split; cbn; assumption.
  - unfold settle_run.
    destruct (nth_error (inflight w) i) as [captured|] eqn:Hnth;
      [|split; assumption].
    assert (Hi : (i < List.length (inflight w))%nat)
      by (apply nth_error_Some; congruence).
    destruct (isSimulating (app w)); [|lia].
    assert (i = 0%nat) by lia. subst i.
    destruct (inflight w) as [|c [|c' rest]]; try discriminate.
    split; cbn.
    + rewrite resume_clears_isSimulating. reflexivity.
    + rewrite List.length_app. cbn in *. lia.
Qed.

Lemma reachable_single_flight (w : World num) :
  reachable w -> single_flight w.
Proof.
  induction 1 as [|w e _ IH];
    [apply single_flight_initial | apply single_flight_step, IH].
Qed.

Lemma run_snoc (es : list (Event num)) (e : Event num) :
  run (es ++ [e]) = step (run es) e.
Proof. unfold run. rewrite fold_left_app. reflexivity. Qed.

Lemma run_reachable (es : list (Event num)) : reachable (run es).
Proof.
  induction es as [|e es IH] using rev_ind;
    [apply reachable_initial | rewrite run_snoc; apply reachable_step, IH].
Qed.

(** The guard is the disabled button, not the handler: invoked twice in a
    row without it, [simulateMission] leaves two runs suspended. *)
Lemma unguarded_invocation_overlaps (w : World num) :
  List.length (inflight (invoke_simulate (invoke_simulate w)))
  = S (S (List.length (inflight w))).
Proof. cbn. rewrite !List.length_app. cbn. lia. Qed.

End SingleFlight.

(** C5.  In every state the component reaches, by any sequence of clicks,
    parameter changes and settling requests, at most one run is in flight;
    a run is in flight exactly while [isSimulating] is set; a click on the
    Simulate button while a run is in flight changes nothing; and the
    outcomes stored so far number the runs begun less the one in flight, so
    the run in flight yields one outcome and the ignored click none. *)
Theorem C5_single_flight :
  forall (num : Type) (N : Number num) (es : list (Event num)),
    (List.length (inflight (run es)) <= 1)%nat
    /\ List.length (inflight (run es))
       = (if isSimulating (app (run es)) then 1 else 0)%nat
    /\ (inflight (run es) = [] \/ step (run es) click_simulate = run es)
    /\ started (run es)
       = (List.length (outcomes (run es)) + List.length (inflight (run es)))%nat
    /\ (forall i x,
           List.length (outcomes (step (run es) (settle i x)))
           = match nth_error (inflight (run es)) i with
             | Some _ => S (List.length (outcomes (run es)))
             | None => List.length (outcomes (run es))
             end).
Proof.
  intros num N es.
  destruct (reachable_single_flight (run_reachable es)) as [Hfl Hst].
  repeat split.
  - rewrite Hfl. destruct (isSimulating _); lia.
  - exact Hfl.
  - cbn [step]. unfold ControlPanel_simulate_button.
    destruct (isSimulating (app (run es))).
    + right. reflexivity.
    + left. apply length_zero_iff_nil. exact Hfl.
  - exact Hst.
  - intros i x. cbn [step]. unfold settle_run.
    destruct (nth_error _ i);
      [cbn; rewrite List.length_app; cbn; lia | reflexivity].
Qed.

(** Two clicks in a row begin one run; when its request fails, one outcome
    is stored and the button is live again. *)
Example double_click :
  started (run (num := float) [click_simulate; click_simulate]) = 1%nat
  /\ inflight (run (num := float) [click_simulate; click_simulate])
     = [parameters initialState]
  /\ List.length (outcomes (run (num := float)
                              [click_simulate; click_simulate;
                               settle 0 network_error])) = 1%nat
  /\ isSimulating (app (run (num := float)
                          [click_simulate; click_simulate;
                           settle 0 network_error])) = false.
Proof. vm_compute. repeat split. Qed.

(* ================================================================== *)
(** * Launch-date validation *)
(* ================================================================== *)

(** C8, as stated, fails: with the empty string as launch date, which no
    host parses, [simulateMission] raises nothing and posts the request,
    the empty string in it. *)
Lemma C8_counterexample :
  (fun LocalTZA => Date_new LocalTZA "") = (fun _ => None)
  /\ snd (simulateMission_begin
            (setParameters
               {| launchDate := ""; propulsionType := ion; payloadSize := medium |}
               (initialState (num := R))))
     = [POST "/simulate"
          {| launch_date := ""; propulsion_type := ion; payload_size := medium |}]
  /\ apiError (fst (simulateMission_begin
                      (setParameters
                         {| launchDate := ""; propulsionType := ion;
                            payloadSize := medium |}
                         (initialState (num := R)))))
     = None.
Proof. repeat split. Qed.

(** C8, amended.  [simulateMission] does not inspect the launch date: for
    every state, it posts one request to the remote service carrying the
    selected launch date verbatim together with the propulsion and payload
    selections, with no error raised before the request leaves. *)
Theorem C8_no_local_validation :
  forall (num : Type) (N : Number num) (st : AppState num),
    snd (simulateMission_begin st)
    = [POST "/simulate"
         {| launch_date := launchDate (parameters st);
            propulsion_type := propulsionType (parameters st);
            payload_size := payloadSize (parameters st) |}]
    /\ apiError (fst (simulateMission_begin st)) = None
    /\ isSimulating (fst (simulateMission_begin st)) = true.
Proof. intros. repeat split. Qed.

(* ================================================================== *)
(** * Determinism of the position model *)
(* ================================================================== *)

(** [new Date('2025-10-30')]: a date-only form is UTC on every host. *)
Lemma reference_epoch (LocalTZA : Z -> Z) :
  Date_new LocalTZA "2025-10-30" = Some 1761782400000%Z.
Proof. vm_compute. reflexivity. Qed.

Section CallFacts.
Context {num : Type} {N : Number num} {M : MathLib num} {T : TimeValue num}.

(** The value of a call is the record computed from the host's zone and
    the launch date, and the host is handed back as it was. *)
Lemma getTimeBasedPositions_call_spec (props : SpaceSceneProps num) (h : Host) :
  getTimeBasedPositions_call props h
  = (getTimeBasedPositions (zone h) props, h).
Proof. reflexivity. Qed.

End CallFacts.

(** Other calls of the engine are not like that: a reading of the clock
    depends on the moment, a random draw moves the host on, and a local
    date-time denotes different epochs in different zones. *)
Example clock_reads_differ :
  fst (new_Date_now host_morning) <> fst (new_Date_now host_later).
Proof. cbn. intros H. discriminate H. Qed.

Example random_draw_moves_host (random : nat -> float) :
  snd (Math_random random host_morning) <> host_morning.
Proof. cbn. intros H. discriminate H. Qed.

Example zone_decides_local_dates :
  fst (getTimeBasedPositions_call (M := TaylorHost.mathlib) scene_idle host_later)
  <> fst (getTimeBasedPositions_call (M := TaylorHost.mathlib) scene_idle
            host_kolkata).
Proof. vm_compute. intros H. discriminate H. Qed.

(** C7.  The positions are a function of the launch epoch and of nothing
    else, and computing them changes nothing.  Two calls whose launch dates
    denote the same epoch (or are both invalid) return the same record,
    whatever the other props, the clocks, the random streams and even the
    zones of the hosts they run on; each call hands its host back as it
    found it; and two calls one after the other return the same record
    twice.  In binary64 equality of records is equality of every
    coordinate bit for bit. *)
Theorem C7_positions_deterministic :
  forall (num : Type) (N : Number num) (M : MathLib num) (T : TimeValue num)
         (props1 props2 : SpaceSceneProps num) (h1 h2 : Host),
    Date_new (zone h1) (scene_launchDate props1)
    = Date_new (zone h2) (scene_launchDate props2) ->
    fst (getTimeBasedPositions_call props1 h1)
    = fst (getTimeBasedPositions_call props2 h2)
    /\ snd (getTimeBasedPositions_call props1 h1) = h1
    /\ snd (getTimeBasedPositions_call props2 h2) = h2
    /\ (zone h1 = zone h2 ->
        two_calls props1 props2 h1
        = ((fst (getTimeBasedPositions_call props1 h1),
            fst (getTimeBasedPositions_call props1 h1)), h1)).
Proof.
  intros num N M T props1 props2 h1 h2 Hepoch.
  rewrite !getTimeBasedPositions_call_spec. cbn [fst snd].
  assert (Hsame : getTimeBasedPositions (zone h1) props1
                  = getTimeBasedPositions (zone h2) props2).
  { unfold getTimeBasedPositions.
    rewrite Hepoch, (reference_epoch (zone h1)), (reference_epoch (zone h2)).
    reflexivity. }
  split; [exact Hsame|]. split; [reflexivity|]. split; [reflexivity|].
  intros Hzone. unfold two_calls, host_bind.
  rewrite !getTimeBasedPositions_call_spec. unfold host_ret.
  rewrite Hzone at 2. rewrite <- Hsame. reflexivity.
Qed.

Lemma C7_witness :
  Date_new (zone host_morning) (scene_launchDate scene_idle)
  = Date_new (zone host_kolkata)
      (scene_launchDate (scene_at "2025-10-30T15:30"))
  /\ fst (getTimeBasedPositions_call (M := TaylorHost.mathlib) scene_idle
            host_morning)
     = fst (getTimeBasedPositions_call (M := TaylorHost.mathlib)
              (scene_at "2025-10-30T15:30") host_kolkata).
Proof.
  split; [reflexivity|].
  apply (@C7_positions_deterministic float float_Number TaylorHost.mathlib
           float_TimeValue scene_idle (scene_at "2025-10-30T15:30")
           host_morning host_kolkata).
  reflexivity.
Defined.

(** At the reference epoch itself the Earth sits at its anchor offset and
    the object at perihelion distance; an invalid launch date makes every
    computed coordinate NaN. *)
Example positions_at_reference_epoch :
  let p := getTimeBasedPositions (M := TaylorHost.mathlib) TaylorHost.LocalTZA
             (scene_at "2025-10-30") in
  earthPosition p = (lit (-2.7), 0%float, 0%float)
  /\ atlasPosition p = (lit 2.8, 3%float, 0%float).
Proof. vm_compute. split; reflexivity. Qed.

Example positions_of_invalid_date :
  let p := getTimeBasedPositions (M := TaylorHost.mathlib) TaylorHost.LocalTZA
             (scene_at "") in
  earthPosition p = (PrimFloat.nan, PrimFloat.nan, 0%float)
  /\ atlasPosition p = (PrimFloat.nan, PrimFloat.nan, 0%float).
Proof. vm_compute. split; reflexivity. Qed.

(** The host's zone is part of the input: a date-time without an offset is
    local time, so hosts in different zones place the bodies differently. *)
Example positions_depend_on_zone :
  getTimeBasedPositions (M := TaylorHost.mathlib) (fun _ => 0%Z) scene_idle
  <> getTimeBasedPositions (M := TaylorHost.mathlib) (fun _ => 19800000%Z)
       scene_idle.
Proof. vm_compute. intros H. discriminate H. Qed.

(* ================================================================== *)
(** * The trajectory curve *)
(* ================================================================== *)

Section TrajectoryLoop.
Context {num : Type} {N : Number num} {M : MathLib num}.

Lemma push_loop {A B : Type} (f : A -> B) (l : list A) (acc : list B) :
  fold_left (fun points i => (points ++ [f i])%list) l acc
  = (acc ++ map f l)%list.
Proof.
  revert acc. induction l as [|a l IH]; intros acc; cbn.
  - symmetry. apply app_nil_r.
  - rewrite IH, <- app_assoc. reflexivity.
Qed.

(** The loop pushes the points of the counters [0 .. segments] in order. *)
Lemma trajectory_loop_map v (e a : Vec3 num) n :
  trajectory_loop v e a n = map (trajectory_point v e a n) (seq 0 (S n)).
Proof. unfold trajectory_loop. rewrite push_loop. reflexivity. Qed.

Lemma trajectory_loop_length v (e a : Vec3 num) n :
  List.length (trajectory_loop v e a n) = S n.
Proof. rewrite trajectory_loop_map, length_map, length_seq. reflexivity. Qed.

Lemma trajectory_loop_nth v (e a : Vec3 num) n i :
  (i <= n)%nat ->
  nth_error (trajectory_loop v e a n) i = Some (trajectory_point v e a n i).
Proof.
  intros Hi. rewrite trajectory_loop_map.
  rewrite nth_error_map, nth_error_seq.
  destruct (Nat.ltb_spec i (S n)); [reflexivity | lia].
Qed.

Lemma getTrajectoryPoints_length v (e a : Vec3 num) :
  List.length (getTrajectoryPoints v e a) = 51%nat.
Proof. apply trajectory_loop_length. Qed.

End TrajectoryLoop.

(** ** Over the reals *)

Lemma of_nat_real (i : nat) : of_nat (num := R) i = INR i.
Proof.
  unfold of_nat. cbn [lit R_Number]. unfold Q2R, inject_Z. cbn [Qnum Qden].
  rewrite <- INR_IZR_INZ. lra.
Qed.

(** [t] at the first counter is 0 and at the last counter is 1. *)
Lemma progress_start (n : nat) :
  div (of_nat (num := R) 0) (of_nat (S n)) = 0%R.
Proof. rewrite !of_nat_real. cbn [div R_Number INR]. unfold Rdiv. lra. Qed.

Lemma progress_end (n : nat) :
  div (of_nat (num := R) (S n)) (of_nat (S n)) = 1%R.
Proof.
  rewrite !of_nat_real. cbn [div R_Number].
  apply Rinv_r. apply not_0_INR. discriminate.
Qed.

Lemma trajectory_point_first v (e a : Vec3 R) n :
  trajectory_point v e a (S n) 0 = e.
Proof.
  destruct e as [[eX eY] eZ], a as [[aX aY] aZ].
  unfold trajectory_point. rewrite progress_start.
  destruct (String.eqb v "chemical");
    [|destruct (String.eqb v "ion"); [|destruct (String.eqb v "solar-sail")]];
    cbv zeta; vec3_eq; curve_arith.
Qed.

Lemma trajectory_point_last v (e a : Vec3 R) n :
  trajectory_point v e a (S n) (S n) = a.
Proof.
  destruct e as [[eX eY] eZ], a as [[aX aY] aZ].
  unfold trajectory_point. rewrite progress_end.
  destruct (String.eqb v "chemical");
    [|destruct (String.eqb v "ion"); [|destruct (String.eqb v "solar-sail")]];
    cbv zeta; vec3_eq; curve_arith.
Qed.



(** So does the chemical bump, to 1/2, and the solar-sail sweep, to 15/8. *)
Lemma chemical_midpoint :
  trajectory_point "chemical" scene_origin scene_origin 50 25 = (0, 1 / 2, 0)%R.
Proof.
  unfold trajectory_point, scene_origin, of_nat. cbn.
  cbv [Q2R Qnum Qden inject_Z].
  replace (25 * / 1 / (50 * / 1) * PI)%R with (PI / 2)%R by lra.
  rewrite sin_PI2. vec3_eq; lra.
Qed.

Lemma solar_sail_midpoint :
  trajectory_point "solar-sail" scene_origin scene_origin 50 25
  = (0, 15 / 8, 0)%R.
Proof.
  unfold trajectory_point, scene_origin, of_nat. cbn.
  cbv [Q2R Qnum Qden inject_Z]. vec3_eq; lra.
Qed.




(** In binary64, on the bodies of the default scene, all four curves start
    at the Earth and end at the object, bit for bit. *)
Example endpoints_in_binary64 :
  let pos := getTimeBasedPositions (M := TaylorHost.mathlib)
               TaylorHost.LocalTZA scene_idle in
  forallb
    (fun v =>
       let points := getTrajectoryPoints (M := TaylorHost.mathlib) v
                       (earthPosition pos) (atlasPosition pos) in
       match nth_error points 0, nth_error points 50 with
       | Some (x0, y0, z0), Some (x1, y1, z1) =>
           let '(eX, eY, eZ) := earthPosition pos in
           let '(aX, aY, aZ) := atlasPosition pos in
           PrimFloat.eqb x0 eX && PrimFloat.eqb y0 eY && PrimFloat.eqb z0 eZ
           && PrimFloat.eqb x1 aX && PrimFloat.eqb y1 aY && PrimFloat.eqb z1 aZ
       | _, _ => false
       end)
    ["chemical"; "ion"; "solar-sail"; "warp"] = true.
Proof. vm_compute. reflexivity. Qed.

(** Binary64 has its limits: between the two extreme doubles the span
    overflows, and the first point of the straight line is not a number. *)
Example endpoints_overflow :
  nth_error (getTrajectoryPoints (M := TaylorHost.mathlib) "warp"
               far_left far_right) 0
  = Some (PrimFloat.nan, 0%float, 0%float).
Proof. vm_compute. reflexivity. Qed.

(* ================================================================== *)
(** * Runs in flight and what the page shows *)
(* ================================================================== *)

Section MoreLifecycle.
Context {num : Type} {N : Number num}.

Lemma run_app (es l : list (Event num)) :
  run (es ++ l) = fold_left step l (run es).
Proof. unfold run. apply fold_left_app. Qed.

Lemma flying_step captured (w : World num) (e : Event num) :
  not_settle e = true -> flying captured w ->
  flying captured (step w e)
  /\ started (step w e) = started w /\ outcomes (step w e) = outcomes w.
Proof.
  intros He (Hsim & Hfl & Herr). destruct e as [ | | p | i x]; try discriminate.
  - cbn [step]. unfold ControlPanel_simulate_button. rewrite Hsim.
    repeat split; assumption.
  - repeat split; assumption.
  - repeat split; assumption.
Qed.

Lemma flying_steps captured (mid : list (Event num)) (w : World num) :
  forallb not_settle mid = true -> flying captured w ->
  flying captured (fold_left step mid w)
  /\ started (fold_left step mid w) = started w
  /\ outcomes (fold_left step mid w) = outcomes w.
Proof.
  revert w. induction mid as [|e mid IH]; intros w Hmid Hw; [auto|].
  cbn in Hmid. apply andb_true_iff in Hmid as [He Hmid].
  destruct (flying_step e He Hw) as (Hw' & Hs & Ho).
  cbn [fold_left]. destruct (IH _ Hmid Hw') as (H1 & H2 & H3).
  split; [exact H1|]. split; congruence.
Qed.

Lemma settle_flying captured (x : Exchange num) (w : World num) :
  flying captured w ->
  let w' := step w (settle 0 x) in
  results (app w') = match remote_results x with
                     | Some data => adopt data
                     | None => fallbackResults captured
                     end
  /\ apiError (app w') = (if delegation_failed x then Some offline_notice else None)
  /\ isSimulating (app w') = false /\ isAnimating (app w') = true
  /\ parameters (app w') = parameters (app w)
  /\ inflight w' = []
  /\ outcomes w' = (outcomes w ++ [results (app w')])%list.
Proof.
  intros (Hsim & Hfl & Herr). cbn [step]. unfold settle_run. rewrite Hfl.
  cbn [nth_error firstn skipn app].
  unfold delegation_failed, remote_results, missionAPI_simulate, api_post.
  destruct x as [status [data|]| |];
    try destruct ((200 <=? status) && (status <? 300))%Z;
    cbn; rewrite ?Herr; repeat split.
Qed.

End MoreLifecycle.

(** X1.  A run belongs to the click that began it.  From any idle page, a
    click followed by any parameter edits, resets and further clicks and
    then by the settling of the request stores the response verbatim, or
    else the estimate for the parameters as they stood at the click; the
    banner tells which; the page stays busy until the request settles, and
    exactly one outcome is added. *)
Theorem run_outcome_fixed_at_click :
  forall (num : Type) (N : Number num) (es mid : list (Event num))
         (x : Exchange num),
    isSimulating (app (run es)) = false ->
    forallb not_settle mid = true ->
    results (app (run (es ++ click_simulate :: mid ++ [settle 0 x])))
    = match remote_results x with
      | Some data => adopt data
      | None => fallbackResults (parameters (app (run es)))
      end
    /\ apiError (app (run (es ++ click_simulate :: mid ++ [settle 0 x])))
       = (if delegation_failed x then Some offline_notice else None)
    /\ isSimulating (app (run (es ++ click_simulate :: mid))) = true
    /\ isSimulating (app (run (es ++ click_simulate :: mid ++ [settle 0 x]))) = false
    /\ isAnimating (app (run (es ++ click_simulate :: mid ++ [settle 0 x]))) = true
    /\ parameters (app (run (es ++ click_simulate :: mid ++ [settle 0 x])))
       = parameters (app (run (es ++ click_simulate :: mid)))
    /\ List.length (outcomes (run (es ++ click_simulate :: mid ++ [settle 0 x])))
       = S (List.length (outcomes (run es))).
Proof.
  intros num N es mid x Hidle Hmid.
  destruct (reachable_single_flight (run_reachable es)) as [Hfl _].
  rewrite Hidle in Hfl. apply length_zero_iff_nil in Hfl.
  assert (Hfly : flying (parameters (app (run es))) (step (run es) click_simulate)).
  { cbn [step]. unfold ControlPanel_simulate_button. rewrite Hidle.
    unfold flying, invoke_simulate. cbn. rewrite Hfl. auto. }
  assert (Hout : outcomes (step (run es) click_simulate) = outcomes (run es)).
  { cbn [step]. unfold ControlPanel_simulate_button. rewrite Hidle. reflexivity. }
  destruct (flying_steps mid Hmid Hfly) as (Hfly' & _ & Hout').
  replace (es ++ click_simulate :: mid ++ [settle 0 x])%list
    with ((es ++ click_simulate :: mid) ++ [settle 0 x])%list
    by (rewrite <- app_assoc; reflexivity).
  rewrite (run_app (es ++ click_simulate :: mid) [settle 0 x]).
  rewrite (run_app es (click_simulate :: mid)) in *.
  cbn [fold_left] in *.
  destruct (settle_flying x Hfly') as (H1 & H2 & H3 & H4 & H5 & H6 & H7).
  repeat split; try assumption.
  - apply Hfly'.
  - rewrite H7, List.length_app, Hout', Hout. cbn. lia.
Qed.

Lemma run_outcome_fixed_at_click_witness :
  isSimulating (app (run (num := float) [])) = false
  /\ forallb (not_settle (num := float))
       [change_parameters
          {| launchDate := ""; propulsionType := chemical; payloadSize := large |};
        click_reset; click_simulate] = true
  /\ results (app (run (num := float)
                     ([] ++ click_simulate
                         :: [change_parameters
                               {| launchDate := ""; propulsionType := chemical;
                                  payloadSize := large |};
                             click_reset; click_simulate]
                         ++ [settle 0 network_error])))
     = fallbackResults (parameters (initialState (num := float))).
Proof.
  split; [reflexivity|]. split; [reflexivity|].
  apply (@run_outcome_fixed_at_click float float_Number []
           [change_parameters
              {| launchDate := ""; propulsionType := chemical; payloadSize := large |};
            click_reset; click_simulate]
           network_error); reflexivity.
Defined.

Section DisplayInvariant.
Context {num : Type} {N : Number num}.

Lemma display_consistent_step (w : World num) (e : Event num) :
  single_flight w -> display_consistent (app w) ->
  display_consistent (app (step w e)).
Proof.
  intros [Hfl _] Hdc. pose proof Hdc as [Hflags Hbanner].
  destruct e as [ | | p | i x]; cbn [step].
  - unfold ControlPanel_simulate_button.
    destruct (isSimulating (app w)) eqn:Hsim; [exact Hdc|].
    split; cbn; auto.
  - split; cbn; [apply andb_false_r | exact I].
  - exact Hdc.
  - unfold settle_run.
    destruct (nth_error (inflight w) i) as [captured|] eqn:Hnth;
      [|exact Hdc].
    assert (Hsim : isSimulating (app w) = true).
    { destruct (isSimulating (app w)); [reflexivity|].
      destruct (inflight w); [destruct i|]; discriminate. }
    assert (Herr : apiError (app w) = None).
    { destruct (apiError (app w)); [|reflexivity].
      destruct Hbanner as (_ & Hno & _). congruence. }
    destruct (missionAPI_simulate x) as [[data|]|err];
      [rewrite resume_fulfilled | rewrite resume_null_body
       | rewrite resume_rejected];
      cbn [snd app apiError isSimulating isAnimating results];
      rewrite ?Herr; split; try reflexivity; try exact I; repeat split;
      exists captured; reflexivity.
Qed.

Lemma reachable_display_consistent (w : World num) :
  reachable w -> display_consistent (app w).
Proof.
  induction 1 as [|w e Hw IH].
  - split; [reflexivity | exact I].
  - apply display_consistent_step; [apply reachable_single_flight, Hw | exact IH].
Qed.

End DisplayInvariant.

(** X2.  After every sequence of events the page never shows the busy state
    and the animation together. *)
Theorem animation_off_while_simulating :
  forall (num : Type) (N : Number num) (es : list (Event num)),
    isSimulating (app (run es)) && isAnimating (app (run es)) = false.
Proof.
  intros. apply (reachable_display_consistent (run_reachable es)).
Qed.

(** X3.  After every sequence of events, a banner on the page is the offline
    notice, the page is idle and animating, and the outcome it shows is a
    local estimate for some parameter object. *)
Theorem offline_banner_means_fallback :
  forall (num : Type) (N : Number num) (es : list (Event num)),
    match apiError (app (run es)) with
    | None => True
    | Some notice =>
        notice = offline_notice
        /\ isSimulating (app (run es)) = false
        /\ isAnimating (app (run es)) = true
        /\ exists p, results (app (run es)) = fallbackResults p
    end.
Proof.
  intros. apply (reachable_display_consistent (run_reachable es)).
Qed.

(* ================================================================== *)
(** * The offline estimate across the parameter space *)
(* ================================================================== *)

(** X4.  In the offline estimate a heavier payload costs more of everything:
    [deltaV], [travelTime] and [fuelCost] rise strictly from small to
    medium to large and [successProbability] falls strictly, for every
    propulsion type, over the reals and in binary64. *)
Theorem fallback_payload_monotone :
  (forall (d : string) (p : PropulsionType),
      let r := fun s => fallbackResults (num := R) (mission d p s) in
      (deltaV (r small) < deltaV (r medium) < deltaV (r large))%R
      /\ (travelTime (r small) < travelTime (r medium) < travelTime (r large))%R
      /\ (fuelCost (r small) < fuelCost (r medium) < fuelCost (r large))%R
      /\ (successProbability (r large) < successProbability (r medium)
          < successProbability (r small))%R)
  /\ (forall (d : string) (p : PropulsionType),
         let r := fun s => fallbackResults (num := float) (mission d p s) in
         ascending (deltaV (r small)) (deltaV (r medium)) (deltaV (r large)) = true
         /\ ascending (travelTime (r small)) (travelTime (r medium))
              (travelTime (r large)) = true
         /\ ascending (fuelCost (r small)) (fuelCost (r medium))
              (fuelCost (r large)) = true
         /\ ascending (successProbability (r large)) (successProbability (r medium))
              (successProbability (r small)) = true).
Proof.
  split; intros d p r; subst r.
  - destruct p; cbn; repeat split; real_arith.
  - destruct p; vm_compute; repeat split.
Qed.

(** X5.  In the offline estimate the propulsion types are ordered the same
    way for every payload: solar sail needs the least [deltaV] and the
    longest time, chemical the most [deltaV] and the shortest time, and ion
    is the likeliest to succeed, solar sail the least. *)
Theorem fallback_propulsion_tradeoff :
  (forall (d : string) (s : PayloadSize),
      let r := fun p => fallbackResults (num := R) (mission d p s) in
      (deltaV (r solar_sail) < deltaV (r ion) < deltaV (r chemical))%R
      /\ (travelTime (r chemical) < travelTime (r ion) < travelTime (r solar_sail))%R
      /\ (successProbability (r solar_sail) < successProbability (r chemical)
          < successProbability (r ion))%R)
  /\ (forall (d : string) (s : PayloadSize),
         let r := fun p => fallbackResults (num := float) (mission d p s) in
         ascending (deltaV (r solar_sail)) (deltaV (r ion)) (deltaV (r chemical))
         = true
         /\ ascending (travelTime (r chemical)) (travelTime (r ion))
              (travelTime (r solar_sail)) = true
         /\ ascending (successProbability (r solar_sail))
              (successProbability (r chemical)) (successProbability (r ion))
            = true).
Proof.
  split; intros d s r; subst r.
  - destruct s; cbn; repeat split; real_arith.
  - destruct s; vm_compute; repeat split.
Qed.

(** X6.  The offline estimate reports success only for ion propulsion: in
    binary64 exactly for ion, over the reals exactly for ion with a payload
    other than large. *)
Theorem fallback_success_only_for_ion :
  (forall p : UIMissionParameters,
      missionStatus (fallbackResults (num := float) p) = "success"
      <-> propulsionType p = ion)
  /\ (forall p : UIMissionParameters,
         missionStatus (fallbackResults (num := R) p) = "success"
         <-> propulsionType p = ion /\ payloadSize p <> large).
Proof.
  split; intros p.
  - each_mission p; vm_compute; split; intros H; try reflexivity; discriminate H.
  - each_mission p; cbn; real_arith;
      (split;
       [ intros H; first [discriminate H | (split; [reflexivity | discriminate])]
       | intros [H1 H2];
         first [reflexivity | discriminate H1 | (exfalso; apply H2; reflexivity)] ]).
Qed.

(* ================================================================== *)
(** * The metrics panel *)
(* ================================================================== *)

(** X7.  The text colour and the bar gradient of the success figure always
    belong to the same band, and for an offline estimate the band agrees
    with the status: a success is never shown red, a warning never green;
    binary64 picks the colour the reals pick. *)
Theorem success_colour_follows_status :
  (forall (num : Type) (N : Number num) (probability : num),
      (getSuccessColor probability = "text-green-400"
       <-> getSuccessGradient probability = "from-green-500 to-emerald-500")
      /\ (getSuccessColor probability = "text-yellow-400"
          <-> getSuccessGradient probability = "from-yellow-500 to-orange-500")
      /\ (getSuccessColor probability = "text-red-400"
          <-> getSuccessGradient probability = "from-red-500 to-pink-500"))
  /\ (forall p : UIMissionParameters,
         let r := fallbackResults (num := R) p in
         (missionStatus r = "success"
          -> getSuccessColor (successProbability r) <> "text-red-400")
         /\ (missionStatus r = "warning"
             -> getSuccessColor (successProbability r) <> "text-green-400"))
  /\ (forall p : UIMissionParameters,
         let r := fallbackResults (num := float) p in
         (missionStatus r = "success"
          -> getSuccessColor (successProbability r) <> "text-red-400")
         /\ (missionStatus r = "warning"
             -> getSuccessColor (successProbability r) <> "text-green-400")
         /\ getSuccessColor (successProbability r)
            = getSuccessColor (successProbability (fallbackResults (num := R) p))).
Proof.
  split; [|split].
  - intros num N probability. unfold getSuccessColor, getSuccessGradient.
    destruct (geb probability (lit 0.8)); [|destruct (geb probability (lit 0.6))];
      repeat split; intros H; try reflexivity; discriminate H.
  - intros p r. subst r.
    each_mission p; unfold getSuccessColor; cbn; real_arith;
      split; intros H; try discriminate H; discriminate.
  - intros p r. subst r.
    each_mission p; unfold getSuccessColor; (split; [|split]);
      first [ solve [vm_compute; intros H; first [discriminate H | discriminate]]
            | solve [cbn; real_arith; vm_compute; reflexivity] ].
Qed.

(** X8.  The travel-time, delta-V and fuel bars never exceed the full
    width, whatever the outcome; the success bar has no cap and overflows
    exactly when the probability exceeds 1.  For an outcome within the
    bounds of the data model all four bars are between 0 and 100. *)
Theorem metric_bars_capped :
  forall r : UIMissionResults R,
    (travelTime_bar r <= 100 /\ deltaV_bar r <= 100 /\ fuelCost_bar r <= 100)%R
    /\ ((100 < success_bar r)%R <-> (1 < successProbability r)%R)
    /\ (if within_bounds r
        then (0 <= travelTime_bar r /\ 0 <= deltaV_bar r /\ 0 <= fuelCost_bar r
              /\ 0 <= success_bar r <= 100)%R
        else True).
Proof.
  intros [T V P L C S].
  unfold travelTime_bar, deltaV_bar, fuelCost_bar, success_bar, capped_bar,
    within_bounds.
  cbn [travelTime deltaV fuelCost successProbability lit add sub mul div geb
       Math_min R_Number andb].
  cbv [Q2R Qnum Qden R_geb]. unfold Rmin.
  repeat match goal with
         | |- context [Rle_dec ?a ?b] => destruct (Rle_dec a b)
         end;
    cbn [andb]; repeat split; try exact I; try lra; intros; lra.
Qed.

(** X9.  For an offline estimate the travel-time bar is full exactly for a
    solar sail with a medium or large payload, the delta-V bar exactly for
    chemical with a large payload, and the fuel bar stays under half. *)
Theorem fallback_bars_saturate :
  (forall p : UIMissionParameters,
      let r := fallbackResults (num := R) p in
      (travelTime_bar r = 100%R
       <-> propulsionType p = solar_sail /\ payloadSize p <> small)
      /\ (deltaV_bar r = 100%R
          <-> propulsionType p = chemical /\ payloadSize p = large)
      /\ (fuelCost_bar r < 50)%R)
  /\ (forall p : UIMissionParameters,
         let r := fallbackResults (num := float) p in
         (PrimFloat.eqb (travelTime_bar r) 100 = true
          <-> propulsionType p = solar_sail /\ payloadSize p <> small)
         /\ (PrimFloat.eqb (deltaV_bar r) 100 = true
             <-> propulsionType p = chemical /\ payloadSize p = large)
         /\ PrimFloat.ltb (fuelCost_bar r) 50 = true).
Proof.
  split; intros p r; subst r.
  - each_mission p;
      unfold travelTime_bar, deltaV_bar, fuelCost_bar, capped_bar; cbn;
      cbv [Q2R Qnum Qden Rmin]; repeat destruct Rle_dec;
      repeat split; try lra;
      try (intros H; exfalso; lra);
      try (intros [H1 H2]; first [discriminate H1 | discriminate H2
                                 | exfalso; apply H2; reflexivity]);
      try discriminate.
  - each_mission p; vm_compute;
      repeat split;
      try (intros H; discriminate H);
      try (intros [H1 H2]; first [discriminate H1 | discriminate H2
                                 | exfalso; apply H2; reflexivity]);
      try discriminate.
Qed.

(** The integer part of a quotient of integers is the quotient rounded
    down. *)
Lemma Int_part_ratio (a b : Z) :
  (0 < b)%Z -> Int_part (IZR a / IZR b) = (a / b)%Z.
Proof.
  intros Hb. assert (Hb' : (0 < IZR b)%R) by (apply IZR_lt; exact Hb).
  destruct (base_Int_part (IZR a / IZR b)) as [H1 H2].
  set (k := Int_part (IZR a / IZR b)) in *.
  assert (Hlo : (k * b <= a)%Z).
  { apply le_IZR. rewrite mult_IZR.
    apply (Rmult_le_compat_r (IZR b)) in H1; [|lra].
    unfold Rdiv in H1. rewrite Rmult_assoc, Rinv_l, Rmult_1_r in H1 by lra.
    exact H1. }
  assert (Hhi : (a < (k + 1) * b)%Z).
  { apply lt_IZR. rewrite mult_IZR, plus_IZR.
    assert (H3 : (IZR a / IZR b < IZR k + 1)%R) by lra.
    apply (Rmult_lt_compat_r (IZR b)) in H3; [|lra].
    unfold Rdiv in H3. rewrite Rmult_assoc, Rinv_l, Rmult_1_r in H3 by lra.
    exact H3. }
  apply (Z.div_unique a b k (a - b * k)); lia.
Qed.

(** X22.  Rounding never reaches the reader: for every offline estimate
    the four figures on the metrics panel and the five lines of the
    mission log are, in binary64, the very texts exact arithmetic gives,
    although the numbers behind them differ in the last place. *)
Theorem display_hides_rounding :
  forall p : UIMissionParameters,
    metric_texts (fallbackResults (num := float) p)
    = metric_texts (fallbackResults (num := R) p)
    /\ missionLog (fallbackResults (num := float) p)
       = missionLog (fallbackResults (num := R) p).
Proof.
  intros p. each_mission p.
  all: split.
  all: match goal with
       | |- ?l = ?r =>
           let l' := eval vm_compute in l in
           transitivity l'; [vm_compute; reflexivity|]
       end.
  all: cbv [metric_texts fallbackResults adjusted_multipliers
            missionLog travelTime deltaV successProbability fuelCost
            propulsionType payloadSize switch_propulsion switch_payload
            propulsion_string payload_string String.eqb Ascii.eqb Bool.eqb
            initial_multipliers deltaVMultiplier timeMultiplier successBase
            lit add sub mul div Math_max Math_min toFixed R_Number R_toFixed
            Q2R Qnum Qden Rmax Rmin].
  all: decide_Rle.
  all: cbn [pow].
  all: eval_Int_part Int_part_ratio.
  all: vm_compute; reflexivity.
Qed.

(* ================================================================== *)
(** * Geometry of the position model *)
(* ================================================================== *)

(** X10.  For every valid launch date the Earth lies on the circle of
    radius 0.3 about (-3, 0, 0) in the plane z = 0; the object lies in the
    same plane on the V-shaped path x = 2.8 + 8 |y - 3|, never nearer than
    1.4 to the sun, and at least 5.5 to the right of the Earth, so the two
    never coincide.  The time from perihelion is the launch time less the
    reference epoch, in years of 365.25 days. *)
Theorem positions_geometry :
  forall (LocalTZA : Z -> Z) (props : SpaceSceneProps R) (t : Z),
    Date_new LocalTZA (scene_launchDate props) = Some t ->
    let p := getTimeBasedPositions (T := valid_time_over_reals) LocalTZA props in
    let '(eX, eY, eZ) := earthPosition p in
    let '(aX, aY, aZ) := atlasPosition p in
    ((eX + 3) ^ 2 + eY ^ 2 = 0.09 /\ eZ = 0 /\ aZ = 0
     /\ currentDistance p = 1.4 + 2 * Rabs (timeFromPerihelion p)
     /\ 1.4 <= currentDistance p
     /\ aX = 2 * currentDistance p
     /\ aY = 3 + timeFromPerihelion p / 2
     /\ aX = 2.8 + 8 * Rabs (aY - 3)
     /\ 5.5 <= aX - eX)%R
    /\ earthPosition p <> atlasPosition p
    /\ timeFromPerihelion p
       = ((IZR t - 1761782400000) / 86400000 / 365.25)%R.
Proof.
  intros LocalTZA props t Hvalid p. subst p. unfold getTimeBasedPositions.
  rewrite Hvalid, reference_epoch.
  cbn [earthPosition atlasPosition currentDistance timeFromPerihelion
       getTime of_time valid_time_over_reals].
  set (d := div _ _).
  assert (Hd : d = ((IZR t - 1761782400000) / 86400000 / 365.25)%R).
  { unfold d. cbn [lit sub mul div R_Number]. cbv [Q2R Qnum Qden]. field. }
  cbn [lit add sub mul div Math_abs Math_cos Math_sin Math_PI R_Number R_MathLib].
  cbv [Q2R Qnum Qden].
  set (phase := (d * (2 * / 1) * PI)%R).
  pose proof (sin2_cos2 phase) as Hsc. unfold Rsqr in Hsc.
  pose proof (COS_bound phase) as [Hc1 Hc2].
  pose proof (Rabs_pos d) as Habs.
  assert (Habs8 : (8 * Rabs (3 * / 1 + d * (5 * / 10) - 3) = 4 * Rabs d)%R).
  { replace (3 * / 1 + d * (5 * / 10) - 3)%R with (/ 2 * d)%R by lra.
    rewrite Rabs_mult, (Rabs_pos_eq (/ 2)) by lra. lra. }
  split; [|split].
  - repeat split; try lra; try nra.
  - intros H. injection H as Hx _. lra.
  - exact Hd.
Qed.

Lemma positions_geometry_witness :
  Date_new utc (scene_launchDate (scene_over_reals "2025-12-19"))
  = Some 1766102400000%Z
  /\ (let p := getTimeBasedPositions (T := valid_time_over_reals) utc
                 (scene_over_reals "2025-12-19") in
      let '(eX, eY, eZ) := earthPosition p in
      let '(aX, aY, aZ) := atlasPosition p in
      ((eX + 3) ^ 2 + eY ^ 2 = 0.09 /\ eZ = 0 /\ aZ = 0
       /\ currentDistance p = 1.4 + 2 * Rabs (timeFromPerihelion p)
       /\ 1.4 <= currentDistance p
       /\ aX = 2 * currentDistance p
       /\ aY = 3 + timeFromPerihelion p / 2
       /\ aX = 2.8 + 8 * Rabs (aY - 3)
       /\ 5.5 <= aX - eX)%R
      /\ earthPosition p <> atlasPosition p
      /\ timeFromPerihelion p
         = ((IZR 1766102400000 - 1761782400000) / 86400000 / 365.25)%R).
Proof.
  split; [reflexivity|].
  apply (@positions_geometry utc (scene_over_reals "2025-12-19")
           1766102400000%Z).
  reflexivity.
Defined.

(** X11.  The Earth's position repeats every 365.25 days: two launch dates a
    whole number of such years apart place it at the same point. *)
Theorem earth_returns_every_julian_year :
  forall (LocalTZA : Z -> Z) (props1 props2 : SpaceSceneProps R)
         (t1 : Z) (years : nat),
    Date_new LocalTZA (scene_launchDate props1) = Some t1 ->
    Date_new LocalTZA (scene_launchDate props2)
    = Some (t1 + Z.of_nat years * 31557600000)%Z ->
    earthPosition (getTimeBasedPositions (T := valid_time_over_reals)
                     LocalTZA props1)
    = earthPosition (getTimeBasedPositions (T := valid_time_over_reals)
                       LocalTZA props2).
Proof.
  intros LocalTZA props1 props2 t1 years H1 H2.
  unfold getTimeBasedPositions. rewrite H1, H2, reference_epoch.
  cbn [earthPosition getTime of_time valid_time_over_reals].
  cbn [lit add sub mul div Math_cos Math_sin Math_PI R_Number R_MathLib].
  cbv [Q2R Qnum Qden].
  rewrite plus_IZR, mult_IZR, <- INR_IZR_INZ.
  set (a := ((IZR t1 - 1761782400000) / (1000 * / 1 * (60 * / 1) * (60 * / 1)
                                           * (24 * / 1))
             / (36525 * / 100) * (2 * / 1) * PI)%R).
  replace ((IZR t1 + INR years * 31557600000 - 1761782400000)
           / (1000 * / 1 * (60 * / 1) * (60 * / 1) * (24 * / 1))
           / (36525 * / 100) * (2 * / 1) * PI)%R
    with (a + 2 * INR years * PI)%R by (unfold a; field).
  rewrite cos_period, sin_period. reflexivity.
Qed.

Lemma earth_returns_every_julian_year_witness :
  Date_new utc (scene_launchDate (scene_over_reals "2025-10-30"))
  = Some 1761782400000%Z
  /\ Date_new utc (scene_launchDate (scene_over_reals "2026-10-30T06:00"))
     = Some (1761782400000 + Z.of_nat 1 * 31557600000)%Z
  /\ earthPosition (getTimeBasedPositions (T := valid_time_over_reals) utc
                      (scene_over_reals "2025-10-30"))
     = earthPosition (getTimeBasedPositions (T := valid_time_over_reals) utc
                        (scene_over_reals "2026-10-30T06:00")).
Proof.
  split; [reflexivity|]. split; [reflexivity|].
  apply (@earth_returns_every_julian_year utc
           (scene_over_reals "2025-10-30")
           (scene_over_reals "2026-10-30T06:00") 1761782400000%Z 1%nat);
    reflexivity.
Defined.

(** X12.  The object's path is symmetric about the reference epoch
    2025-10-30: launch dates equally far before and after it give the same
    distance and the same x, with y mirrored about 3. *)
Theorem object_distance_symmetric :
  forall (LocalTZA : Z -> Z) (props1 props2 : SpaceSceneProps R) (offset : Z),
    Date_new LocalTZA (scene_launchDate props1)
    = Some (1761782400000 + offset)%Z ->
    Date_new LocalTZA (scene_launchDate props2)
    = Some (1761782400000 - offset)%Z ->
    let p1 := getTimeBasedPositions (T := valid_time_over_reals) LocalTZA props1 in
    let p2 := getTimeBasedPositions (T := valid_time_over_reals) LocalTZA props2 in
    currentDistance p1 = currentDistance p2
    /\ timeFromPerihelion p1 = (- timeFromPerihelion p2)%R
    /\ fst (fst (atlasPosition p1)) = fst (fst (atlasPosition p2))
    /\ (snd (fst (atlasPosition p1)) + snd (fst (atlasPosition p2)) = 6)%R.
Proof.
  intros LocalTZA props1 props2 offset H1 H2 p1 p2. subst p1 p2.
  unfold getTimeBasedPositions. rewrite H1, H2, reference_epoch.
  cbn [atlasPosition currentDistance timeFromPerihelion getTime of_time
       valid_time_over_reals fst snd].
  cbn [lit add sub mul div Math_abs R_Number].
  cbv [Q2R Qnum Qden].
  rewrite plus_IZR, minus_IZR.
  set (d := IZR offset).
  replace ((1761782400000 - d - 1761782400000)
           / (1000 * / 1 * (60 * / 1) * (60 * / 1) * (24 * / 1))
           / (36525 * / 100))%R
    with (- ((1761782400000 + d - 1761782400000)
             / (1000 * / 1 * (60 * / 1) * (60 * / 1) * (24 * / 1))
             / (36525 * / 100)))%R by field.
  rewrite Rabs_Ropp. repeat split; lra.
Qed.

Lemma object_distance_symmetric_witness :
  Date_new utc (scene_launchDate (scene_over_reals "2025-10-31"))
  = Some (1761782400000 + 86400000)%Z
  /\ Date_new utc (scene_launchDate (scene_over_reals "2025-10-29"))
     = Some (1761782400000 - 86400000)%Z
  /\ currentDistance (getTimeBasedPositions (T := valid_time_over_reals) utc
                        (scene_over_reals "2025-10-31"))
     = currentDistance (getTimeBasedPositions (T := valid_time_over_reals) utc
                          (scene_over_reals "2025-10-29")).
Proof.
  split; [reflexivity|]. split; [reflexivity|].
  apply (@object_distance_symmetric utc
           (scene_over_reals "2025-10-31")
           (scene_over_reals "2025-10-29") 86400000%Z);
    reflexivity.
Defined.

(* ================================================================== *)
(** * Shape of the trajectory curves *)
(* ================================================================== *)

(** X13.  On every curve the depth z runs linearly from origin to target.
    The span x does too, except for the solar sail, where it follows the
    cubic with control points at 0.3 and 0.7 of the way.  A curve of an
    unrecognised propulsion string is the straight segment. *)
Theorem depth_and_span_are_linear :
  forall (v : string) (origin target : Vec3 R) (segments i : nat),
    let '(x, y, z) := trajectory_point v origin target segments i in
    let '(eX, eY, eZ) := origin in
    let '(aX, aY, aZ) := target in
    let t := course_fraction segments i in
    (z = eZ + (aZ - eZ) * t)%R
    /\ (if String.eqb v "solar-sail"
        then (x = eX + (aX - eX) * (t * (0.9 + t * (0.3 - 0.2 * t))))%R
        else (x = eX + (aX - eX) * t)%R)
    /\ (if recognised v then True else (y = eY + (aY - eY) * t)%R).
Proof.
  intros v [[eX eY] eZ] [[aX aY] aZ] segments i.
  unfold trajectory_point, recognised, course_fraction.
  set (t := div _ _).
  destruct (String.eqb v "chemical") eqn:Hc;
    [|destruct (String.eqb v "ion") eqn:Hi;
      [|destruct (String.eqb v "solar-sail") eqn:Hs]].
  - assert (Hss : String.eqb v "solar-sail" = false).
    { apply String.eqb_eq in Hc. subst v. reflexivity. }
    rewrite Hss. curve_unfold. repeat split; try exact I; ring.
  - assert (Hss : String.eqb v "solar-sail" = false).
    { apply String.eqb_eq in Hi. subst v. reflexivity. }
    rewrite Hss. curve_unfold. repeat split; try exact I; field.
  - curve_unfold. repeat split; try exact I; field.
  - curve_unfold. repeat split; ring.
Qed.

Lemma course_fraction_unit (segments i : nat) :
  (1 <= segments)%nat -> (i <= segments)%nat ->
  (0 <= course_fraction segments i <= 1)%R.
Proof.
  intros Hn Hi. unfold course_fraction. rewrite !of_nat_real. cbn [div R_Number].
  assert (Hpos : (0 < INR segments)%R) by (apply lt_0_INR; lia).
  assert (Hle : (INR i <= INR segments)%R) by (apply le_INR; lia).
  pose proof (pos_INR i) as Hi0.
  split.
  - apply Rmult_le_pos; [exact Hi0 | left; apply Rinv_0_lt_compat, Hpos].
  - apply (Rmult_le_reg_r (INR segments)); [exact Hpos|].
    unfold Rdiv. rewrite Rmult_assoc, Rinv_l by lra. lra.
Qed.

Section Convexity.
Local Open Scope R_scope.

Lemma lerp_between a b lo hi t :
  lo <= a -> lo <= b -> a <= hi -> b <= hi -> 0 <= t <= 1 ->
  lo <= a + (b - a) * t <= hi.
Proof. intros. split; nra. Qed.

Lemma bezier2_between p0 p1 p2 lo hi t :
  lo <= p0 -> lo <= p1 -> lo <= p2 -> p0 <= hi -> p1 <= hi -> p2 <= hi ->
  0 <= t <= 1 ->
  lo <= (1 - t) ^ 2 * p0 + 2 * (1 - t) * t * p1 + t ^ 2 * p2 <= hi.
Proof.
  intros.
  assert (0 <= (1 - t) ^ 2) by nra. assert (0 <= t ^ 2) by nra.
  assert (0 <= 2 * (1 - t) * t) by nra.
  split.
  - replace lo with ((1 - t) ^ 2 * lo + 2 * (1 - t) * t * lo + t ^ 2 * lo)
      by ring.
    repeat apply Rplus_le_compat; apply Rmult_le_compat_l; assumption.
  - replace hi with ((1 - t) ^ 2 * hi + 2 * (1 - t) * t * hi + t ^ 2 * hi)
      by ring.
    repeat apply Rplus_le_compat; apply Rmult_le_compat_l; assumption.
Qed.

Lemma bezier3_between p0 p1 p2 p3 lo hi t :
  lo <= p0 -> lo <= p1 -> lo <= p2 -> lo <= p3 ->
  p0 <= hi -> p1 <= hi -> p2 <= hi -> p3 <= hi ->
  0 <= t <= 1 ->
  lo <= (1 - t) ^ 3 * p0 + 3 * (1 - t) ^ 2 * t * p1
        + 3 * (1 - t) * t ^ 2 * p2 + t ^ 3 * p3 <= hi.
Proof.
  intros.
  assert (0 <= 1 - t) by lra.
  assert (0 <= (1 - t) ^ 3) by (apply pow_le; lra).
  assert (0 <= t ^ 3) by (apply pow_le; lra).
  assert (0 <= 3 * (1 - t) ^ 2 * t).
  { apply Rmult_le_pos; [|lra]. apply Rmult_le_pos; [lra|]. apply pow_le; lra. }
  assert (0 <= 3 * (1 - t) * t ^ 2).
  { apply Rmult_le_pos; [|apply pow_le; lra]. apply Rmult_le_pos; lra. }
  split.
  - replace lo with ((1 - t) ^ 3 * lo + 3 * (1 - t) ^ 2 * t * lo
                     + 3 * (1 - t) * t ^ 2 * lo + t ^ 3 * lo) by ring.
    repeat apply Rplus_le_compat; apply Rmult_le_compat_l; assumption.
  - replace hi with ((1 - t) ^ 3 * hi + 3 * (1 - t) ^ 2 * t * hi
                     + 3 * (1 - t) * t ^ 2 * hi + t ^ 3 * hi) by ring.
    repeat apply Rplus_le_compat; apply Rmult_le_compat_l; assumption.
Qed.

End Convexity.

(** X14.  Every point of a curve lies within the box spanned by origin and
    target, raised by the curve's arc: 0.5 for chemical, 0.75 for ion, 3
    for solar sail, nothing for the straight line. *)
Theorem curve_stays_in_its_box :
  forall (v : string) (origin target : Vec3 R) (segments i : nat),
    (1 <= segments)%nat -> (i <= segments)%nat ->
    let '(x, y, z) := trajectory_point v origin target segments i in
    let '(eX, eY, eZ) := origin in
    let '(aX, aY, aZ) := target in
    (Rmin eX aX <= x <= Rmax eX aX
     /\ Rmin eY aY <= y <= Rmax eY aY + arc_height v
     /\ Rmin eZ aZ <= z <= Rmax eZ aZ)%R.
Proof.
  intros v [[eX eY] eZ] [[aX aY] aZ] segments i Hn Hi.
  pose proof (course_fraction_unit Hn Hi) as Ht. unfold course_fraction in Ht.
  unfold trajectory_point, arc_height. set (t := div _ _) in *. clearbody t.
  curve_unfold. rewrite ?Rinv_1, ?Rmult_1_r.
  pose proof (Rmin_l eX aX). pose proof (Rmin_r eX aX).
  pose proof (Rmax_l eX aX). pose proof (Rmax_r eX aX).
  pose proof (Rmin_l eY aY). pose proof (Rmin_r eY aY).
  pose proof (Rmax_l eY aY). pose proof (Rmax_r eY aY).
  pose proof (Rmin_l eZ aZ). pose proof (Rmin_r eZ aZ).
  pose proof (Rmax_l eZ aZ). pose proof (Rmax_r eZ aZ).
  set (mY := Rmax eY aY) in *. set (mX := Rmax eX aX) in *.
  set (nY := Rmin eY aY) in *. set (nX := Rmin eX aX) in *.
  set (mZ := Rmax eZ aZ) in *. set (nZ := Rmin eZ aZ) in *.
  clearbody mY mX nY nX mZ nZ.
  assert (HX : (nX <= eX + (aX - eX) * t <= mX)%R)
    by (apply lerp_between; lra).
  assert (HY : (nY <= eY + (aY - eY) * t <= mY)%R)
    by (apply lerp_between; lra).
  assert (HZ : (nZ <= eZ + (aZ - eZ) * t <= mZ)%R)
    by (apply lerp_between; lra).
  assert (Htu : (0 <= t * (1 - t) <= / 4)%R).
  { pose proof (Rle_0_sqr (t - / 2)) as Hsq. unfold Rsqr in Hsq. split; nra. }
  curve_cases v.
  - assert (Hs : (0 <= sin (t * PI) <= 1)%R).
    { split; [|apply SIN_bound].
      apply sin_ge_0; pose proof PI_RGT_0; nra. }
    lra.
  - assert (Hx : (nX <= (1 - t) ^ 2 * eX + 2 * (1 - t) * t * ((eX + aX) / 2)
                        + t ^ 2 * aX <= mX)%R)
      by (apply bezier2_between; lra).
    assert (Hy : (nY <= (1 - t) ^ 2 * eY + 2 * (1 - t) * t * mY
                        + t ^ 2 * aY <= mY)%R)
      by (apply bezier2_between; lra).
    cbn [pow] in Hx, Hy. rewrite ?Rmult_1_r in Hx, Hy. lra.
  - assert (Hx : (nX <= (1 - t) ^ 3 * eX
                        + 3 * (1 - t) ^ 2 * t * (eX + (aX - eX) * (3 / 10))
                        + 3 * (1 - t) * t ^ 2 * (eX + (aX - eX) * (7 / 10))
                        + t ^ 3 * aX <= mX)%R).
    { apply bezier3_between; try lra; apply lerp_between; lra. }
    assert (Hy : (nY <= (1 - t) ^ 3 * eY + 3 * (1 - t) ^ 2 * t * (eY + 3)
                        + 3 * (1 - t) * t ^ 2 * (eY + 2) + t ^ 3 * aY
                  <= mY + 3)%R)
      by (apply bezier3_between; lra).
    cbn [pow] in Hx, Hy. rewrite ?Rmult_1_r in Hx, Hy. lra.
  - lra.
Qed.

Lemma curve_stays_in_its_box_witness :
  (1 <= 50)%nat /\ (25 <= 50)%nat
  /\ (let '(x, y, z) :=
        trajectory_point "solar-sail" scene_origin scene_target 50 25 in
      let '(eX, eY, eZ) := scene_origin in
      let '(aX, aY, aZ) := scene_target in
      (Rmin eX aX <= x <= Rmax eX aX
       /\ Rmin eY aY <= y <= Rmax eY aY + arc_height "solar-sail"
       /\ Rmin eZ aZ <= z <= Rmax eZ aZ)%R).
Proof.
  split; [lia|]. split; [lia|].
  apply (@curve_stays_in_its_box "solar-sail" scene_origin scene_target 50 25);
    lia.
Defined.

Lemma course_fraction_complement (segments i : nat) :
  (1 <= segments)%nat -> (i <= segments)%nat ->
  course_fraction segments (segments - i) = (1 - course_fraction segments i)%R.
Proof.
  intros Hn Hi. unfold course_fraction. rewrite !of_nat_real. cbn [div R_Number].
  rewrite minus_INR by exact Hi.
  assert (Hpos : (0 < INR segments)%R) by (apply lt_0_INR; lia).
  field. lra.
Qed.

Lemma rev_seq (n : nat) :
  rev (seq 0 n) = map (fun i => (n - 1 - i)%nat) (seq 0 n).
Proof.
  induction n as [|n IH]; [reflexivity|].
  rewrite seq_S at 1. rewrite rev_app_distr. cbn [rev app plus].
  rewrite IH. cbn [seq map]. rewrite <- seq_shift, map_map.
  change (([] ++ [n]) ++ map (fun i => n - 1 - i) (seq 0 n))%list
    with (n :: map (fun i => n - 1 - i) (seq 0 n))%nat.
  apply f_equal2; [lia | apply map_ext; intros i; lia].
Qed.

Lemma trajectory_point_reversed v (origin target : Vec3 R) segments i :
  String.eqb v "solar-sail" = false ->
  (1 <= segments)%nat -> (i <= segments)%nat ->
  trajectory_point v target origin segments i
  = trajectory_point v origin target segments (segments - i).
Proof.
  intros Hv Hn Hi. destruct origin as [[eX eY] eZ], target as [[aX aY] aZ].
  pose proof (course_fraction_complement Hn Hi) as Hc. unfold course_fraction in Hc.
  unfold trajectory_point. rewrite Hc, Hv. set (t := div _ _). clearbody t.
  curve_unfold. rewrite ?Rinv_1, ?Rmult_1_r.
  destruct (String.eqb v "chemical"); [|destruct (String.eqb v "ion")].
  - replace ((1 - t) * PI)%R with (PI - t * PI)%R by ring.
    rewrite sin_PI_x. vec3_eq; ring.
  - rewrite (Rmax_comm aY eY). vec3_eq; field.
  - vec3_eq; ring.
Qed.

(** X15.  Except for the solar sail, the curve from target back to origin
    is the curve from origin to target run backwards, point for point. *)
Theorem return_leg_retraces_the_curve :
  forall (v : string) (origin target : Vec3 R),
    String.eqb v "solar-sail" = false ->
    getTrajectoryPoints v target origin
    = rev (getTrajectoryPoints v origin target).
Proof.
  intros v origin target Hv.
  unfold getTrajectoryPoints. rewrite !trajectory_loop_map, <- map_rev, rev_seq.
  rewrite map_map. apply map_ext_in. intros i Hi. apply in_seq in Hi.
  rewrite (@trajectory_point_reversed v origin target 50 i Hv) by lia.
  f_equal.
Qed.

Lemma return_leg_retraces_the_curve_witness :
  String.eqb "ion" "solar-sail" = false
  /\ getTrajectoryPoints "ion" scene_target scene_origin
     = rev (getTrajectoryPoints "ion" scene_origin scene_target).
Proof.
  split; [reflexivity|].
  apply (@return_leg_retraces_the_curve "ion" scene_origin scene_target).
  reflexivity.
Defined.

(** The solar sail's control heights are not symmetric: even between
    coincident endpoints the way back differs from the way out. *)
Example solar_sail_return_differs :
  trajectory_point "solar-sail" scene_origin scene_origin 50 10
  <> trajectory_point "solar-sail" scene_origin scene_origin 50 40.
Proof.
  unfold trajectory_point, scene_origin, of_nat. curve_unfold.
  cbv [inject_Z Z.of_nat Pos.of_succ_nat Pos.succ Q2R Qnum Qden].
  intros H. injection H as _ Hy. lra.
Qed.

(* ================================================================== *)
(** * Waypoints, markers and the animated spacecraft *)
(* ================================================================== *)

Lemma filter_index_map {A B : Type} (f : A -> B) keep (i : nat) (l : list A) :
  filter_index keep i (map f l) = map f (filter_index keep i l).
Proof.
  revert i. induction l as [|a l IH]; intros i; [reflexivity|].
  cbn [map filter_index]. destruct (keep i); cbn [map]; rewrite IH; reflexivity.
Qed.

(** X16.  The waypoints are the points of the counters 0, 10, ..., 50, from
    origin to target.  The timeline markers stand at origin, mid-course
    and target, and are labelled with 0, 1/25 and 2/25 of the travel time:
    the label is computed from the position in the filtered array. *)
Theorem waypoints_and_timeline_markers :
  (forall (num : Type) (N : Number num) (M : MathLib num) (v : string)
          (origin target : Vec3 num),
      waypoints (getTrajectoryPoints v origin target)
      = map (trajectory_point v origin target 50) [0; 10; 20; 30; 40; 50]%nat)
  /\ (forall (v : string) (origin target : Vec3 R) (travelTime : R),
         hd_error (waypoints (getTrajectoryPoints v origin target)) = Some origin
         /\ last (waypoints (getTrajectoryPoints v origin target)) origin = target
         /\ timeline_markers (getTrajectoryPoints v origin target) travelTime
            = [ (origin, 0%R);
                (trajectory_point v origin target 50 25, (travelTime / 25)%R);
                (target, (2 * travelTime / 25)%R) ]).
Proof.
  assert (Hw : forall (num : Type) (N : Number num) (M : MathLib num) (v : string)
                      (origin target : Vec3 num),
             waypoints (getTrajectoryPoints v origin target)
             = map (trajectory_point v origin target 50)
                 [0; 10; 20; 30; 40; 50]%nat).
  { intros. unfold waypoints, getTrajectoryPoints.
    rewrite trajectory_loop_map, filter_index_map. reflexivity. }
  split; [exact Hw|].
  intros v origin target travelTime. rewrite Hw.
  cbn [map hd_error last].
  rewrite (trajectory_point_first v origin target 49).
  rewrite (trajectory_point_last v origin target 49).
  split; [reflexivity|]. split; [reflexivity|].
  unfold timeline_markers, getTrajectoryPoints.
  rewrite trajectory_loop_map, filter_index_map.
  change (filter_index (fun index => (index mod 25 =? 0)%nat) 0 (seq 0 51))
    with [0; 25; 50]%nat.
  cbn [map map_index].
  rewrite (trajectory_point_first v origin target 49).
  rewrite (trajectory_point_last v origin target 49).
  unfold of_nat. cbn [lit mul div R_Number Z.of_nat].
  cbv [Q2R Qnum Qden inject_Z]. cbn [Z.of_nat Pos.of_succ_nat Pos.succ].
  repeat (f_equal; try lra).
Qed.

Lemma Int_part_IZR (k : Z) : Int_part (IZR k) = k.
Proof.
  destruct (base_Int_part (IZR k)) as [H1 H2].
  assert (Ha : (Int_part (IZR k) <= k)%Z) by (apply le_IZR; exact H1).
  assert (Hb : (k < Int_part (IZR k) + 1)%Z)
    by (apply lt_IZR; rewrite plus_IZR; lra).
  lia.
Qed.

(** For a non-negative clock the progress is in [0, 1). *)
Lemma animationProgress_unit (elapsedTime previous : R) :
  (0 <= elapsedTime)%R ->
  (0 <= useFrame_animationProgress true true elapsedTime previous < 1)%R.
Proof.
  intros He. unfold useFrame_animationProgress.
  cbn [andb rem div lit R_Rounding R_Number]. cbv [Q2R Qnum Qden].
  unfold R_rem, R_trunc.
  replace (10 * / 1)%R with 10%R by lra.
  destruct (Rlt_dec (elapsedTime / 10) 0) as [Hneg|_]; [lra|].
  destruct (base_Int_part (elapsedTime / 10)) as [H1 H2]. lra.
Qed.

Lemma array_index_IZR (k : Z) :
  (0 <= k)%Z -> array_index (IZR k) = Some (Z.to_nat k).
Proof.
  intros Hk. unfold array_index.
  cbn [isInteger ToIntegerOrInfinity R_Rounding]. unfold R_isInteger, R_trunc.
  rewrite Int_part_IZR.
  destruct (Req_dec_T (IZR k) (IZR k)) as [_|Hne]; [|congruence].
  destruct (Rlt_dec (IZR k) 0) as [Hneg|_].
  - apply lt_IZR in Hneg. lia.
  - apply Z.leb_le in Hk. rewrite Hk. reflexivity.
Qed.

(** X17.  While the animation runs, at every clock time the progress is in
    [0, 1), the spacecraft sits on a point of the curve (the index never
    leaves the array), and the trail is the part of the curve before it. *)
Theorem spacecraft_stays_on_the_curve :
  forall (v : string) (origin target : Vec3 R) (elapsedTime previous : R),
    (0 <= elapsedTime)%R ->
    let points := getTrajectoryPoints v origin target in
    let progress := useFrame_animationProgress true true elapsedTime previous in
    (0 <= progress < 1)%R
    /\ exists i : nat,
         (i <= 50)%nat
         /\ spacecraft_position points progress
            = Some (trajectory_point v origin target 50 i)
         /\ trail points progress = firstn i points
         /\ List.length (trail points progress) = i.
Proof.
  intros v origin target elapsedTime previous He points progress.
  pose proof (animationProgress_unit previous He) as Hp.
  fold progress in Hp. split; [exact Hp|]. clearbody progress.
  unfold spacecraft_position, trail, progress_index.
  assert (Hlen : List.length points = 51%nat)
    by apply getTrajectoryPoints_length.
  rewrite Hlen, of_nat_real.
  cbn [Math_floor mul R_Rounding R_Number].
  set (k := Int_part (INR 51 * progress)).
  assert (H51 : INR 51 = 51%R) by (cbn; lra).
  destruct (base_Int_part (INR 51 * progress)) as [H1 H2]. fold k in H1, H2.
  rewrite H51 in H1, H2.
  assert (Hk0 : (0 <= k)%Z).
  { assert (Hlt : (-1 < k)%Z) by (apply lt_IZR; lra). lia. }
  assert (Hk50 : (k <= 50)%Z).
  { assert (Hlt : (k < 51)%Z) by (apply lt_IZR; lra). lia. }
  exists (Z.to_nat k). split; [lia|].
  unfold array_get. rewrite (array_index_IZR Hk0).
  unfold slice_from_0. cbn [ToIntegerOrInfinity R_Rounding]. unfold R_trunc.
  rewrite Int_part_IZR.
  destruct (Rlt_dec (IZR k) 0) as [Hneg|_]; [apply lt_IZR in Hneg; lia|].
  rewrite Hlen.
  assert (Hnn : (k <? 0)%Z = false) by (apply Z.ltb_ge; exact Hk0).
  rewrite Hnn, Z.min_l by lia.
  split; [|split].
  - unfold points, getTrajectoryPoints. apply trajectory_loop_nth. lia.
  - reflexivity.
  - rewrite firstn_length_le; [reflexivity | rewrite Hlen; lia].
Qed.

Lemma spacecraft_stays_on_the_curve_witness :
  (0 <= 25.5)%R
  /\ (0 <= useFrame_animationProgress true true 25.5%R 0%R < 1)%R.
Proof.
  split; [lra|].
  apply (@spacecraft_stays_on_the_curve "ion" scene_origin scene_origin
           25.5%R 0%R).
  lra.
Defined.

(** The same in binary64, at sample clock times; a clock that is negative
    or not finite takes the index out of the array. *)
Example animation_in_binary64 :
  map on_curve [0; 0.1; 9.999999999999998; 10; 25.5; 1e308]%float
  = [true; true; true; true; true; true].
Proof. vm_compute. reflexivity. Qed.

Example animation_needs_a_running_clock :
  map on_curve [(-0.5)%float; PrimFloat.infinity; PrimFloat.nan]
  = [false; false; false].
Proof. vm_compute. reflexivity. Qed.

(* ================================================================== *)
(** * Colours, service address and scene decoration *)
(* ================================================================== *)

(** X18.  The colours identify the propulsion type: recognised types have
    pairwise different curve colours and pairwise different trail colours,
    no trail colour is a curve colour, and an unrecognised type gets the
    defaults.  A waypoint of an idle scene is drawn in the default green. *)
Theorem curve_colours_tell_propulsion_apart :
  forall v1 v2 : string,
    getTrailColor v1 <> getTrajectoryColor v2
    /\ (if recognised v1
        then getTrajectoryColor v1 = getTrajectoryColor v2 -> v1 = v2
        else getTrajectoryColor v1 = "#00ff88"
             /\ getTrailColor v1 = "#00ffaa")
    /\ (if recognised v1
        then getTrailColor v1 = getTrailColor v2 -> v1 = v2
        else True)
    /\ waypoint_color false v1 = "#00ff88".
Proof.
  intros v1 v2. unfold getTrailColor, getTrajectoryColor, recognised, waypoint_color.
  destruct (String.eqb_spec v1 "chemical") as [E1|_];
    [|destruct (String.eqb_spec v1 "ion") as [E1|_];
      [|destruct (String.eqb_spec v1 "solar-sail") as [E1|_]]];
    (destruct (String.eqb_spec v2 "chemical") as [E2|_];
     [|destruct (String.eqb_spec v2 "ion") as [E2|_];
       [|destruct (String.eqb_spec v2 "solar-sail") as [E2|_]]]);
    cbn [orb]; repeat split; try discriminate; try congruence;
    intros H; discriminate H.
Qed.

(** X19.  The base address of the service is never empty.  A non-empty
    configured address wins; an empty one counts as unset; otherwise the
    local address is used exactly on the host named localhost and the
    hosted one everywhere else. *)
Theorem service_address_never_empty :
  forall envUrl window_hostname : option string,
    API_BASE_URL envUrl window_hostname <> ""
    /\ (forall url, url <> "" ->
                    API_BASE_URL (Some url) window_hostname = url)
    /\ API_BASE_URL (Some "") window_hostname = API_BASE_URL None window_hostname
    /\ (API_BASE_URL None window_hostname = "http://localhost:8000"
        <-> window_hostname = Some "localhost")
    /\ (window_hostname <> Some "localhost"
        -> API_BASE_URL None window_hostname
           = "https://newton-backend.onrender.com").
Proof.
  intros envUrl window_hostname. unfold API_BASE_URL.
  split; [|split; [|split; [|split]]].
  - destruct envUrl as [[|c rest]|];
      try discriminate;
      destruct window_hostname as [h|]; try destruct (String.eqb h "localhost");
      discriminate.
  - intros [|c rest] Hne; [congruence | reflexivity].
  - reflexivity.
  - destruct window_hostname as [h|]; [|split; discriminate].
    destruct (String.eqb_spec h "localhost") as [->|Hne];
      split; intros H; try reflexivity; try discriminate H.
    injection H as H. contradiction.
  - intros Hne. destruct window_hostname as [h|]; [|reflexivity].
    destruct (String.eqb_spec h "localhost") as [->|_];
      [contradiction | reflexivity].
Qed.

(** X20.  While the spacecraft is mounted and the animation runs, the
    engine flame is scaled to between 0.8 and 1.2 at every clock time;
    otherwise the frame leaves the scale as it was. *)
Theorem engine_flame_scale_bounded :
  forall (engineRef_current isAnimating : bool) (elapsedTime scale_y : R),
    (0.8 <= useFrame_engine_scale true true elapsedTime scale_y <= 1.2)%R
    /\ useFrame_engine_scale engineRef_current false elapsedTime scale_y
       = scale_y
    /\ useFrame_engine_scale false isAnimating elapsedTime scale_y = scale_y.
Proof.
  intros m a elapsedTime scale_y. unfold useFrame_engine_scale.
  rewrite andb_false_r. cbn [andb]. split; [|split; reflexivity].
  cbn [lit add mul Math_sin R_Number R_MathLib]. cbv [Q2R Qnum Qden].
  pose proof (SIN_bound (elapsedTime * (10 * / 1))) as [H1 H2]. lra.
Qed.

Lemma push_loop_map {A B : Type} (f : A -> B) (l : list A) :
  fold_left (fun points i => (points ++ [f i])%list) l [] = map f l.
Proof. apply (push_loop f l []). Qed.

(** X21.  Whatever the random source returns in [0, 1), the comet tail has a
    hundred particles, each at a distance between 0.1 and 0.6 from its
    axis and at a height in [-1, 1). *)
Theorem comet_tail_within_its_sheath :
  forall random : nat -> R,
    (forall k, 0 <= random k < 1)%R ->
    List.length (tailPoints random) = 100%nat
    /\ Forall (fun point : Vec3 R =>
                 let '(x, y, z) := point in
                 (0.01 <= x * x + z * z < 0.36 /\ -1 <= y < 1)%R)
         (tailPoints random).
Proof.
  intros random Hr.
  assert (Hmap : tailPoints random
                 = map (fun i => tail_point (random (3 * i)%nat)
                                   (random (3 * i + 1)%nat)
                                   (random (3 * i + 2)%nat)) (seq 0 100)).
  { unfold tailPoints. apply push_loop_map. }
  rewrite Hmap. split; [rewrite length_map, length_seq; reflexivity|].
  apply Forall_forall. intros point Hin. apply in_map_iff in Hin as [i [<- _]].
  unfold tail_point.
  cbn [lit add sub mul Math_cos Math_sin Math_PI R_Number R_MathLib].
  cbv [Q2R Qnum Qden].
  set (angle := (random (3 * i)%nat * PI * (2 * / 1))%R).
  pose proof (Hr (3 * i + 1)%nat) as [Hr1 Hr2].
  pose proof (Hr (3 * i + 2)%nat) as [Hh1 Hh2].
  set (radius := (random (3 * i + 1)%nat * (5 * / 10) + 1 * / 10)%R) in *.
  assert (Hrad : (/ 10 <= radius < 6 / 10)%R) by (unfold radius; lra).
  pose proof (sin2_cos2 angle) as Hsc. unfold Rsqr in Hsc.
  replace (cos angle * radius * (cos angle * radius)
           + sin angle * radius * (sin angle * radius))%R
    with ((sin angle * sin angle + cos angle * cos angle) * (radius * radius))%R
    by ring.
  rewrite Hsc. split; [nra | lra].
Qed.

Lemma comet_tail_within_its_sheath_witness :
  (forall k : nat, 0 <= one_half k < 1)%R
  /\ List.length (tailPoints one_half) = 100%nat.
Proof.
  split; [intros k; unfold one_half; lra|].
  apply (@comet_tail_within_its_sheath one_half).
  intros k. unfold one_half. lra.
Defined.
